(** * care_aware: the health-tip and alert recommendation engine

  A shallow embedding of [weather_service.py], [openai_service.py] and
  the log store of [models.py], with the properties of the rule tables,
  of the AI fallback contract and of the storage read.

  Conventions of the embedding.
  - Python numbers (the floats and ints of the weather payload and of the
    lifestyle logs) are rationals [Q]; every rule compares a number with
    an integer constant, so only the order of [Q] is used.
  - Python [str] is [string]; [str.lower] is lowering of the ASCII
    letters, which is what it does on ASCII text.
  - A dict with string keys and string values is a [gmap string string];
    a dict whose shape is fixed by the code that builds it is a record
    whose optional keys are [option] fields.
  - A call that may raise returns a [result]. *)

From Stdlib Require Import QArith Qround Lqa Ascii DecimalString.
From stdpp Require Import gmap strings list sorting.

Open Scope string_scope.
Open Scope list_scope.

(** ** Python values shared by the three modules *)

Module Py.

Inductive exn : Type :=
| IndexError
| KeyError
| AttributeError
| JSONDecodeError
| ZeroDivisionError
| APIError.

Inductive result (A : Type) : Type :=
| Ok (a : A)
| Raise (e : exn).
Arguments Ok {A} a.
Arguments Raise {A} e.

Definition bind {A B} (r : result A) (k : A -> result B) : result B :=
  match r with
  | Ok a => k a
  | Raise e => Raise e
  end.

#[global] Instance result_ret : MRet result := @Ok.
#[global] Instance result_bind : MBind result := fun A B k r => bind r k.

(** [x > y] on numbers *)
Definition gt (x y : Q) : bool :=
  match (y ?= x)%Q with
  | Lt => true
  | _ => false
  end.

(** [x < y] on numbers *)
Definition lt (x y : Q) : bool := gt y x.

(** [str.lower] *)
Definition lower_char (c : ascii) : ascii :=
  let n := N_of_ascii c in
  if ((65 <=? n) && (n <=? 90))%N then ascii_of_N (n + 32) else c.

Fixpoint lower (s : string) : string :=
  match s with
  | EmptyString => EmptyString
  | String c s' => String (lower_char c) (lower s')
  end.

(** [w in s] on strings: [w] occurs in [s] as a contiguous substring *)
Fixpoint contains (w s : string) : bool :=
  String.prefix w s ||
  match s with
  | EmptyString => false
  | String _ s' => contains w s'
  end.

(** [any(w in s for w in words)] *)
Definition any_in (words : list string) (s : string) : bool :=
  existsb (fun w => contains w s) words.

(** [x / y] on numbers *)
Definition truediv (x y : Q) : result Q :=
  if Qeq_bool y 0 then Raise ZeroDivisionError else Ok (x / y)%Q.

(** [min(len(l), k)] as a number *)
Definition min_len {A} (l : list A) (k : nat) : Q :=
  inject_Z (Z.of_nat (Nat.min (length l) k)).

(** a non-empty list is true *)
Definition truthy_list {A} (l : list A) : bool :=
  match l with
  | [] => false
  | _ :: _ => true
  end.

(** ["\n"] and the double quote *)
Definition nl : string := String (ascii_of_nat 10) EmptyString.
Definition dq : string := String (ascii_of_nat 34) EmptyString.

(** [sep.join(parts)] *)
Fixpoint join (sep : string) (parts : list string) : string :=
  match parts with
  | [] => EmptyString
  | [x] => x
  | x :: rest => x +:+ sep +:+ join sep rest
  end.

(** [str(n)] for an int, [str(b)] for a bool *)
Definition str_int (n : Z) : string := NilEmpty.string_of_int (Z.to_int n).
Definition str_bool (b : bool) : string := if b then "True" else "False".

(** [l[0]] *)
Definition index0 {A} (l : list A) : result A :=
  match l with
  | [] => Raise IndexError
  | x :: _ => Ok x
  end.

(** [sum(...)] over numbers *)
Definition sum (l : list Q) : Q := fold_left Qplus l 0%Q.

(** [l[:n]] for [n >= 0] *)
Definition slice_to {A} (n : nat) (l : list A) : list A := firstn n l.

End Py.

(** ** models.py: the records and the in-memory log store *)

Module Models.

(** A user as [User.create] stores it. *)
Record User := {
  user_id_of : Z;
  name : string;
  email : string;
  password_hash : string;
  user_created_at : string;
  is_premium : bool
}.

(** A profile as [Profile.create_or_update] stores it. *)
Record Profile := {
  profile_user_id : Z;
  age : Z;
  gender : string;
  location : string;
  exercise_frequency : string;
  target_sleep_hours : Q;
  diet_type : string;
  updated_at : string
}.

(** A lifestyle log as [LifestyleLog.create] stores it. *)
Record Log := {
  log_id : Z;
  user_id : Z;
  date : string;
  sleep_hours : Q;
  exercise_minutes : Z;
  water_glasses : Z;
  meals : string;
  notes : string;
  created_at : string
}.

(** The module state that the log functions touch:
    [lifestyle_logs_db] and [log_id_counter]. *)
Record Storage := {
  lifestyle_logs_db : gmap Z (list Log);
  log_id_counter : Z
}.

Definition initial_storage : Storage :=
  {| lifestyle_logs_db := ∅; log_id_counter := 1 |}.

Definition get_next_log_id (st : Storage) : Z * Storage :=
  let current_id := log_id_counter st in
  (current_id,
   {| lifestyle_logs_db := lifestyle_logs_db st;
      log_id_counter := (log_id_counter st + 1)%Z |}).

(** [LifestyleLog.create]; [now] is [datetime.now().isoformat()]. *)
Definition create (now : string) (uid : Z) (d : string) (sleep : Q)
    (exercise water : Z) (meals_ notes_ : string) (st : Storage)
  : Z * Storage :=
  let '(new_id, st) := get_next_log_id st in
  let db := lifestyle_logs_db st in
  let db := match db !! uid with
            | None => <[uid := []]> db
            | Some _ => db
            end in
  let entry := {| log_id := new_id; user_id := uid; date := d;
                  sleep_hours := sleep; exercise_minutes := exercise;
                  water_glasses := water; meals := meals_;
                  notes := notes_; created_at := now |} in
  let db := <[uid := default [] (db !! uid) ++ [entry]]> db in
  (new_id, {| lifestyle_logs_db := db; log_id_counter := log_id_counter st |}).

(** [sorted(logs, key=lambda x: x['date'], reverse=True)]: a stable sort,
    larger dates first, entries of equal date in their stored order. *)
Fixpoint insert_desc (x : Log) (l : list Log) : list Log :=
  match l with
  | [] => [x]
  | y :: ys =>
    if String.ltb (date x) (date y) then y :: insert_desc x ys
    else x :: y :: ys
  end.

Fixpoint sorted_by_date_desc (l : list Log) : list Log :=
  match l with
  | [] => []
  | x :: xs => insert_desc x (sorted_by_date_desc xs)
  end.

(** [LifestyleLog.get_by_user_id]; [limit = None] is the default. *)
Definition get_by_user_id (st : Storage) (uid : Z) (limit : option Z)
  : list Log :=
  match lifestyle_logs_db st !! uid with
  | None => []
  | Some stored =>
    let logs := sorted_by_date_desc stored in
    match limit with
    | Some n =>
      if negb (n =? 0)%Z && (n >? 0)%Z
      then Py.slice_to (Z.to_nat n) logs
      else logs
    | None => logs
    end
  end.

End Models.

(** ** weather_service.py *)

Module WeatherService.
Import Models.

(** The provider's payload, as far as [calculate_health_risks] reads it:
    [data['main'][...]] and [data['weather'][i]['main']]. *)
Record OwmMain := {
  owm_temp : Q;
  owm_humidity : Q;
  owm_feels_like : Q
}.

Record OwmData := {
  owm_main : OwmMain;
  owm_weather : list string
}.

Definition calculate_health_risks (weather_data : OwmData)
  : Py.result (gmap string string) :=
  let temp := owm_temp (owm_main weather_data) in
  let humidity := owm_humidity (owm_main weather_data) in
  let feels_like := owm_feels_like (owm_main weather_data) in
  let risks : gmap string string := ∅ in
  let risks :=
    if Py.gt feels_like 35 then <["heat_stress" := "high"]> risks
    else if Py.gt feels_like 30 then <["heat_stress" := "moderate"]> risks
    else <["heat_stress" := "low"]> risks in
  match owm_weather weather_data with
  | [] => Py.Raise Py.IndexError
  | w0 :: _ =>
    let weather_main := Py.lower w0 in
    let risks :=
      if Py.contains "clear" weather_main && Py.gt temp 25
      then <["uv_risk" := "high"]> risks
      else if Py.gt temp 20 then <["uv_risk" := "moderate"]> risks
      else <["uv_risk" := "low"]> risks in
    let risks :=
      if Py.gt humidity 80 then <["air_quality" := "poor"]> risks
      else if Py.gt humidity 60 then <["air_quality" := "moderate"]> risks
      else <["air_quality" := "good"]> risks in
    let risks :=
      if Py.gt temp 32 || (Py.gt temp 28 && Py.gt humidity 70)
      then <["dehydration_risk" := "high"]> risks
      else if Py.gt temp 25 then <["dehydration_risk" := "moderate"]> risks
      else <["dehydration_risk" := "low"]> risks in
    Py.Ok risks
  end.

(** The [current] block of a weather snapshot, as far as the rules read it
    ([feels_like], [pressure], [icon], [wind_speed] and [visibility] are
    never read back); an absent key is [None]. *)
Record Current := {
  cur_temp : option Q;
  cur_humidity : option Q;
  cur_description : option string
}.

Definition empty_current : Current :=
  {| cur_temp := None; cur_humidity := None; cur_description := None |}.

(** A weather snapshot, [{}] included. *)
Record WeatherData := {
  wd_location : option string;
  wd_country : option string;
  wd_current : option Current;
  wd_risk_indicators : option (gmap string string);
  wd_mock_data : option bool
}.


(** a dict is true when it holds a key *)
Definition dict_truthy (w : WeatherData) : bool :=
  bool_decide (is_Some (wd_location w)) ||
  bool_decide (is_Some (wd_country w)) ||
  bool_decide (is_Some (wd_current w)) ||
  bool_decide (is_Some (wd_risk_indicators w)) ||
  bool_decide (is_Some (wd_mock_data w)).

(** The [weather_data] argument: a snapshot, or [None]. *)
Definition truthy (w : option WeatherData) : bool :=
  match w with
  | None => false
  | Some d => dict_truthy d
  end.

Record Alert := {
  alert_type : string;
  title : string;
  message : string;
  icon : string
}.

Definition extreme_heat_alert : Alert :=
  {| alert_type := "warning";
     title := "Extreme Heat Alert";
     message := "Very high temperatures detected. Stay indoors, drink plenty of water, and avoid strenuous outdoor activities.";
     icon := "🌡️" |}.

Definition heat_advisory : Alert :=
  {| alert_type := "caution";
     title := "Heat Advisory";
     message := "High temperatures today. Stay hydrated and take breaks if working outdoors.";
     icon := "☀️" |}.

Definition high_humidity_alert : Alert :=
  {| alert_type := "info";
     title := "High Humidity Alert";
     message := "Very humid conditions may affect breathing and increase heat stress. Stay cool and hydrated.";
     icon := "💨" |}.

Definition dehydration_risk_alert : Alert :=
  {| alert_type := "warning";
     title := "Dehydration Risk";
     message := "Weather conditions increase dehydration risk. Drink water regularly, even if you don't feel thirsty.";
     icon := "💧" |}.

Definition high_uv_index : Alert :=
  {| alert_type := "caution";
     title := "High UV Index";
     message := "Strong UV radiation today. Use sunscreen, wear protective clothing, and seek shade during peak hours.";
     icon := "🧴" |}.

Definition air_quality_advisory : Alert :=
  {| alert_type := "caution";
     title := "Air Quality Advisory";
     message := "Poor air quality conditions. Consider limiting outdoor activities, especially if you have respiratory issues.";
     icon := "😷" |}.

Definition exercise_adjustment : Alert :=
  {| alert_type := "info";
     title := "Exercise Adjustment";
     message := "Consider indoor workouts or exercising during cooler hours due to high temperatures.";
     icon := "🏃‍♂️" |}.

Definition cool_weather_reminder : Alert :=
  {| alert_type := "info";
     title := "Cool Weather Reminder";
     message := "Cooler temperatures - ensure adequate vitamin D intake and maintain your exercise routine.";
     icon := "🧥" |}.

(** [risks.get(key) == value] *)
Definition risk_is (risks : gmap string string) (key value : string) : bool :=
  bool_decide (risks !! key = Some value).

(** [sum(log['exercise_minutes'] for log in logs)] *)
Definition sum_exercise (logs : list Log) : Q :=
  Py.sum (map (fun log => inject_Z (exercise_minutes log)) logs).

Definition get_health_alerts (user : option User) (profile : option Profile)
    (recent_logs : list Log) (weather_data : option WeatherData)
  : Py.result (list Alert) :=
  let alerts : list Alert := [] in
  if negb (truthy weather_data) then mret alerts else
  let current := default empty_current (weather_data ≫= wd_current) in
  let risks := default ∅ (weather_data ≫= wd_risk_indicators) in
  let temp := default 25%Q (cur_temp current) in
  let humidity := default 50%Q (cur_humidity current) in
  let alerts :=
    if Py.gt temp 35 then alerts ++ [extreme_heat_alert]
    else if Py.gt temp 30 then alerts ++ [heat_advisory]
    else alerts in
  let alerts :=
    if Py.gt humidity 85 then alerts ++ [high_humidity_alert] else alerts in
  let alerts :=
    if risk_is risks "dehydration_risk" "high"
    then alerts ++ [dehydration_risk_alert] else alerts in
  let alerts :=
    if risk_is risks "uv_risk" "high"
    then alerts ++ [high_uv_index] else alerts in
  let alerts :=
    if risk_is risks "air_quality" "poor"
    then alerts ++ [air_quality_advisory] else alerts in
  alerts ←
    (if Py.truthy_list recent_logs then
       avg_exercise ← Py.truediv (sum_exercise (Py.slice_to 3 recent_logs))
                                 (Py.min_len recent_logs 3);
       mret (if Py.gt avg_exercise 60 && Py.gt temp 30
             then alerts ++ [exercise_adjustment] else alerts)
     else mret alerts);
  let alerts :=
    if Py.lt temp 20 then alerts ++ [cool_weather_reminder] else alerts in
  mret alerts.

End WeatherService.

(** ** openai_service.py: the rule-based generators *)

Module OpenAIService.
Import Models WeatherService.

Definition tip_low_sleep : string :=
  "💤 Try to get 7-9 hours of sleep nightly for better health and immunity.".
Definition tip_over_sleep : string :=
  "💤 Consider maintaining a consistent sleep schedule - too much sleep can also affect energy levels.".
Definition tip_generic_sleep : string :=
  "💤 Maintain a regular sleep schedule of 7-9 hours for optimal health.".
Definition tip_low_activity : string :=
  "🏃‍♂️ Aim for at least 30 minutes of physical activity daily to boost your cardiovascular health.".
Definition tip_generic_activity : string :=
  "🏃‍♂️ Regular exercise is key to maintaining good health - aim for 150 minutes per week.".
Definition tip_hydration : string :=
  "💧 Stay hydrated by drinking at least 8 glasses of water daily.".
Definition tip_generic_hydration : string :=
  "💧 Proper hydration is essential - aim for 8-10 glasses of water daily.".
Definition tip_heat : string :=
  "☀️ High temperatures detected - stay cool, drink extra water, and avoid outdoor activities during peak hours.".
Definition tip_cold : string :=
  "❄️ Cool weather - dress warmly and maintain your immune system with proper nutrition.".
Definition tip_humidity : string :=
  "💨 High humidity levels - be aware of increased risk of heat-related stress and dehydration.".
Definition tip_diet : string :=
  "🥗 Include plenty of fruits and vegetables in your diet for essential vitamins and minerals.".
Definition tip_stress : string :=
  "🧘‍♀️ Practice stress management techniques like meditation or deep breathing exercises.".
Definition tip_checkups : string :=
  "👩‍⚕️ Schedule regular health check-ups and screenings for preventive care.".

Definition general_wellness_tips : list string :=
  [tip_diet; tip_stress; tip_checkups].

(** The body of [get_fallback_health_tips] up to and including the
    weather rules, before the general wellness tips are appended. *)
Definition rule_tips (recent_logs : list Log)
    (weather_data : option WeatherData) : Py.result (list string) :=
  let tips : list string := [] in
  tips ←
    (if Py.truthy_list recent_logs then
       avg_sleep ← Py.truediv
         (Py.sum (map sleep_hours (Py.slice_to 7 recent_logs)))
         (Py.min_len recent_logs 7);
       mret (if Py.lt avg_sleep 7 then tips ++ [tip_low_sleep]
             else if Py.gt avg_sleep 9 then tips ++ [tip_over_sleep]
             else tips)
     else mret (tips ++ [tip_generic_sleep]));
  tips ←
    (if Py.truthy_list recent_logs then
       avg_exercise ← Py.truediv
         (Py.sum (map (fun log => inject_Z (exercise_minutes log))
                      (Py.slice_to 7 recent_logs)))
         (Py.min_len recent_logs 7);
       mret (if Py.lt avg_exercise 30 then tips ++ [tip_low_activity]
             else tips)
     else mret (tips ++ [tip_generic_activity]));
  tips ←
    (if Py.truthy_list recent_logs then
       avg_water ← Py.truediv
         (Py.sum (map (fun log => inject_Z (water_glasses log))
                      (Py.slice_to 7 recent_logs)))
         (Py.min_len recent_logs 7);
       mret (if Py.lt avg_water 8 then tips ++ [tip_hydration] else tips)
     else mret (tips ++ [tip_generic_hydration]));
  let tips :=
    match (if truthy weather_data then weather_data ≫= wd_current
           else None) with
    | Some current =>
      let temp := default 25%Q (cur_temp current) in
      let humidity := default 50%Q (cur_humidity current) in
      let tips :=
        if Py.gt temp 30 then tips ++ [tip_heat]
        else if Py.lt temp 15 then tips ++ [tip_cold]
        else tips in
      let tips :=
        if Py.gt humidity 80 then tips ++ [tip_humidity] else tips in
      tips
    | None => tips
    end in
  mret tips.

Definition get_fallback_health_tips (user : option User)
    (profile : option Profile) (recent_logs : list Log)
    (weather_data : option WeatherData) : Py.result (list string) :=
  tips ← rule_tips recent_logs weather_data;
  let tips := tips ++ general_wellness_tips in
  mret (Py.slice_to 5 tips).

(** [get_fallback_chat_response] *)

Definition response_sleep : string :=
  "For better sleep, try maintaining a consistent bedtime routine, avoiding screens before bed, and creating a comfortable sleep environment. If sleep issues persist, consider consulting a healthcare professional.".
Definition response_exercise : string :=
  "Regular exercise is great for overall health! Start with activities you enjoy, aim for at least 30 minutes daily, and gradually increase intensity. Always consult a doctor before starting a new exercise program.".
Definition response_diet : string :=
  "A balanced diet with plenty of fruits, vegetables, whole grains, and lean proteins supports good health. Stay hydrated and limit processed foods. Consider consulting a nutritionist for personalized advice.".
Definition response_stress : string :=
  "Managing stress is important for overall health. Try relaxation techniques like deep breathing, meditation, or regular exercise. Don't hesitate to reach out to mental health professionals if needed.".
Definition response_water : string :=
  "Staying hydrated is essential! Aim for 8-10 glasses of water daily, more if you're active or in hot weather. Water helps with digestion, circulation, and temperature regulation.".
Definition response_generic : string :=
  "I'm here to help with your health and wellness questions! For specific medical concerns, please consult with a healthcare professional. Is there a particular aspect of your health you'd like to discuss?".

Definition get_fallback_chat_response (message : string) : string :=
  let message_lower := Py.lower message in
  if Py.any_in ["sleep"; "tired"; "insomnia"] message_lower
  then response_sleep
  else if Py.any_in ["exercise"; "workout"; "fitness"] message_lower
  then response_exercise
  else if Py.any_in ["diet"; "nutrition"; "food"; "eating"] message_lower
  then response_diet
  else if Py.any_in ["stress"; "anxiety"; "mental"] message_lower
  then response_stress
  else if Py.any_in ["water"; "hydration"; "drink"] message_lower
  then response_water
  else response_generic.

(** ** openai_service.py: the AI gateway *)

(** What [json.loads] returns. *)
#[warnings="-register-all"]
Inductive json : Type :=
| JNull
| JBool (b : bool)
| JNum (q : Q)
| JStr (s : string)
| JArr (l : list json)
| JObj (m : gmap string json).

(** The list the rule-based generator returns, as a Python value. *)
Definition tips_value (tips : list string) : json := JArr (JStr <$> tips).

(** One [chat.completions.create] call. *)
Record Message := {
  role : string;
  content : string
}.

Record Request := {
  model : string;
  messages : list Message;
  response_format : option string;
  max_tokens : Z
}.

(** A response, as far as it is read: [choices[i].message.content],
    [None] or a string. *)
Record Response := {
  choices : list (option string)
}.

(** The external model: any function from the request to a response or
    to an exception (transport error, authentication, rate limit...). *)
Definition Client : Type := Request -> Py.result Response.

(** Computations that may raise and that record the requests they send. *)
Record Eff (A : Type) : Type := MkEff {
  run : list Request -> Py.result A * list Request
}.
Arguments MkEff {A} run.
Arguments run {A} e tr.

#[global] Instance eff_ret : MRet Eff :=
  fun A a => MkEff (fun tr => (Py.Ok a, tr)).

#[global] Instance eff_bind : MBind Eff :=
  fun A B k m =>
    MkEff (fun tr =>
      match run m tr with
      | (Py.Ok a, tr') => run (k a) tr'
      | (Py.Raise e, tr') => (Py.Raise e, tr')
      end).

Definition lift {A} (r : Py.result A) : Eff A := MkEff (fun tr => (r, tr)).

(** [try: body except Exception as e: handler] *)
Definition try_except {A} (body : Eff A) (handler : Py.exn -> Eff A)
  : Eff A :=
  MkEff (fun tr =>
    match run body tr with
    | (Py.Ok a, tr') => (Py.Ok a, tr')
    | (Py.Raise e, tr') => run (handler e) tr'
    end).

(** [openai_client.chat.completions.create(...)] *)
Definition completions_create (client : Client) (req : Request)
  : Eff Response :=
  MkEff (fun tr => (client req, tr ++ [req])).

Section Gateway.

(** [str(x)] for a float, and [json.loads]. *)
Variable str_float : Q -> string.
Variable json_loads : string -> Py.result json.

Definition prepare_health_context (user : option User)
    (profile : option Profile) (recent_logs : list Log)
    (weather_data : option WeatherData) : string :=
  let context_parts : list string := [] in
  let context_parts :=
    match user with
    | Some u =>
      context_parts ++
      ["User: " +:+ name u +:+ ", Premium: " +:+ Py.str_bool (is_premium u)]
    | None => context_parts
    end in
  let context_parts :=
    match profile with
    | Some p =>
      context_parts ++
      ["Age: " +:+ Py.str_int (age p);
       "Gender: " +:+ gender p;
       "Location: " +:+ location p;
       "Exercise Frequency: " +:+ exercise_frequency p;
       "Target Sleep Hours: " +:+ str_float (target_sleep_hours p);
       "Diet Type: " +:+ diet_type p]
    | None => context_parts
    end in
  let context_parts :=
    if Py.truthy_list recent_logs then
      (context_parts ++ [Py.nl +:+ "Recent Lifestyle Logs:"]) ++
      map (fun log =>
             "Date: " +:+ date log +:+ " - Sleep: " +:+
             str_float (sleep_hours log) +:+ "h, " +:+
             "Exercise: " +:+ Py.str_int (exercise_minutes log) +:+
             "min, Water: " +:+ Py.str_int (water_glasses log) +:+
             " glasses")
          (Py.slice_to 3 recent_logs)
    else context_parts in
  let context_parts :=
    match (if truthy weather_data then weather_data ≫= wd_current
           else None) with
    | Some current =>
      context_parts ++
      [Py.nl +:+ "Current Weather: " +:+
       default "N/A" (cur_description current) +:+ ", " +:+
       "Temp: " +:+ default "N/A" (str_float <$> cur_temp current) +:+
       "°C, " +:+
       "Humidity: " +:+ default "N/A" (str_float <$> cur_humidity current)
       +:+ "%"]
    | None => context_parts
    end in
  Py.join Py.nl context_parts.

Definition tips_prompt (context : string) : string :=
  "Based on the following user health data, provide 3-5 personalized health tips. 
        Respond with a JSON object containing an array of tips.

        User Context:
        " +:+ context +:+ "

        Please provide actionable, specific health tips considering:
        1. Sleep patterns and quality
        2. Exercise habits and frequency
        3. Nutrition and hydration
        4. Weather conditions and environmental factors
        5. Overall wellness and preventive care

        Respond in JSON format: {" +:+ Py.dq +:+ "tips" +:+ Py.dq +:+ ": ["
  +:+ Py.dq +:+ "tip1" +:+ Py.dq +:+ ", " +:+ Py.dq +:+ "tip2" +:+ Py.dq
  +:+ ", " +:+ Py.dq +:+ "tip3" +:+ Py.dq +:+ "]}
        ".

Definition tips_system_message : string :=
  "You are a healthcare expert providing personalized wellness advice. Focus on preventive care, lifestyle improvements, and actionable recommendations.".

Definition tips_request (context : string) : Request :=
  {| model := "gpt-5";
     messages := [ {| role := "system"; content := tips_system_message |};
                   {| role := "user"; content := tips_prompt context |} ];
     response_format := Some "json_object";
     max_tokens := 500 |}.

(** [if content:] on [None] or a string *)
Definition truthy_content (c : option string) : bool :=
  match c with
  | Some (String _ _) => true
  | _ => false
  end.

Definition get_health_tips (openai_client : option Client)
    (user : option User) (profile : option Profile)
    (recent_logs : list Log) (weather_data : option WeatherData)
  : Eff json :=
  let fallback : Eff json :=
    tips ← lift (get_fallback_health_tips user profile recent_logs
                                          weather_data);
    mret (tips_value tips) in
  match openai_client with
  | None => fallback
  | Some client =>
    try_except
      (let context :=
         prepare_health_context user profile recent_logs weather_data in
       response ← completions_create client (tips_request context);
       content ← lift (Py.index0 (choices response));
       if truthy_content content then
         result ← lift (json_loads (default EmptyString content));
         match result with
         | JObj d =>
           dflt ← fallback;
           mret (default dflt (d !! "tips"))
         | _ => lift (Py.Raise Py.AttributeError)
         end
       else fallback)
      (fun e => fallback)
  end.





End Gateway.

End OpenAIService.

(** ** Specification-side definitions *)

Module Spec.
Import Models WeatherService OpenAIService.

(** The classifier's input for the tuple
    (temp, feels_like, humidity, weather main description). *)
Definition owm_input (temp feels_like humidity : Q) (description : string)
  : OwmData :=
  {| owm_main := {| owm_temp := temp; owm_humidity := humidity;
                    owm_feels_like := feels_like |};
     owm_weather := [description] |}.

(** The mean of [f] over the [k] most recent of [logs] (the list is
    most-recent-first), as the generators compute it. *)
Definition average (f : Log -> Q) (k : nat) (logs : list Log) : Q :=
  (Py.sum (map f (Py.slice_to k logs)) / Py.min_len logs k)%Q.

Definition exercise_of (log : Log) : Q := inject_Z (exercise_minutes log).
Definition water_of (log : Log) : Q := inject_Z (water_glasses log).

(** The levels of a classified input, in the order heat stress, UV, air
    quality, dehydration. *)
Definition levels (temp feels_like humidity : Q) (description : string)
  : list (option string) :=
  match calculate_health_risks
          (owm_input temp feels_like humidity description) with
  | Py.Ok risks =>
    [risks !! "heat_stress"; risks !! "uv_risk"; risks !! "air_quality";
     risks !! "dehydration_risk"]
  | Py.Raise _ => []
  end.

#[global] Instance alert_eq_dec : EqDecision Alert.
Proof. solve_decision. Defined.

Definition six_alerts : list Alert :=
  [extreme_heat_alert; high_humidity_alert; dehydration_risk_alert;
   high_uv_index; air_quality_advisory; exercise_adjustment].

(** The tips that do not depend on the logs: the three generic ones that
    stand in for an empty history, the weather tips and the filler. *)
Definition generic_tips : list string :=
  [tip_generic_sleep; tip_generic_activity; tip_generic_hydration].




(** The keyword categories of the chat fallback, in the order in which
    they are tried, each with its canned response. *)
Definition categories : list (list string * string) :=
  [ (["sleep"; "tired"; "insomnia"], response_sleep);
    (["exercise"; "workout"; "fitness"], response_exercise);
    (["diet"; "nutrition"; "food"; "eating"], response_diet);
    (["stress"; "anxiety"; "mental"], response_stress);
    (["water"; "hydration"; "drink"], response_water) ].

(** The response of the first category with a keyword in the message,
    the generic response when there is none. *)
Fixpoint first_match (cats : list (list string * string))
    (message_lower : string) : string :=
  match cats with
  | [] => response_generic
  | (keywords, response) :: rest =>
    if existsb (fun keyword => Py.contains keyword message_lower) keywords
    then response
    else first_match rest message_lower
  end.





Definition failing_client : Client := fun _ => Py.Raise Py.APIError.
Definition no_json : string -> Py.result json :=
  fun _ => Py.Raise Py.JSONDecodeError.
Definition plain_float : Q -> string := fun _ => "7.5".

(** [a] is at least as recent as [b]: the order of the dates is the order
    of the strings, as [sorted] compares them. *)
Definition recent_first (a b : Log) : Prop :=
  String.leb (date b) (date a) = true.

(** The store after one log of user 1. *)
Definition one_log_storage : Storage :=
  snd (create "2024-05-04T08:00:00" 1 "2024-05-04" 8 30 8 "rice" ""
              initial_storage).

(** Sample inputs. *)
Definition sample_log (d : string) (sleep : Q) (exercise water : Z) : Log :=
  {| log_id := 1; user_id := 1; date := d; sleep_hours := sleep;
     exercise_minutes := exercise; water_glasses := water;
     meals := "rice"; notes := ""; created_at := "2024-05-04T08:00:00" |}.

Definition sample_weather (temp humidity : Q)
    (risks : gmap string string) : WeatherData :=
  {| wd_location := Some "Lagos"; wd_country := Some "NG";
     wd_current := Some {| cur_temp := Some temp;
                           cur_humidity := Some humidity;
                           cur_description := Some "Clear Sky" |};
     wd_risk_indicators := Some risks;
     wd_mock_data := None |}.

Definition sample_risks : gmap string string :=
  <["dehydration_risk" := "high"]>
    (<["air_quality" := "poor"]>
       (<["uv_risk" := "high"]> (<["heat_stress" := "high"]> ∅))).

End Spec.

(** ** The rule tables, in the order in which the rules are evaluated *)

Module Rules.
Import Models WeatherService OpenAIService.







End Rules.

(** ** The stores that [LifestyleLog.create] can build *)

Module LogStore.
Import Models.

(** The entry that [create] appends. *)
Definition new_entry (st : Storage) (now : string) (uid : Z) (d : string)
    (sleep : Q) (exercise water : Z) (meals_ notes_ : string) : Log :=
  {| log_id := log_id_counter st; user_id := uid; date := d;
     sleep_hours := sleep; exercise_minutes := exercise;
     water_glasses := water; meals := meals_; notes := notes_;
     created_at := now |}.

(** The logs stored for a user, in the order in which they were created. *)
Definition stored_logs (st : Storage) (uid : Z) : list Log :=
  default [] (lifestyle_logs_db st !! uid).

(** The stores reached from the initial one by calls of [create]. *)
Inductive reachable : Storage -> Prop :=
| reachable_initial : reachable initial_storage
| reachable_create st now uid d sleep exercise water meals_ notes_ :
    reachable st ->
    reachable (snd (create now uid d sleep exercise water meals_ notes_ st)).

(** Every stored log is filed under its own user, carries an id issued
    before, and no two stored logs share an id. *)
Definition well_formed (st : Storage) : Prop :=
  (1 <= log_id_counter st)%Z /\
  (forall uid logs, lifestyle_logs_db st !! uid = Some logs ->
     logs <> [] /\
     Forall (fun log => user_id log = uid /\
                        (1 <= log_id log < log_id_counter st)%Z) logs) /\
  (forall uid1 uid2 i j a b,
     stored_logs st uid1 !! i = Some a ->
     stored_logs st uid2 !! j = Some b ->
     log_id a = log_id b -> uid1 = uid2 /\ i = j).

End LogStore.

(** ** models.py: users, profiles and payments *)

(** A Python dict with integer keys whose iteration order matters:
    the entries in insertion order, every key once. *)
Module PyDict.

Definition dict (V : Type) : Type := list (Z * V).

(** [d.get(k)] *)
Fixpoint get {V} (k : Z) (d : dict V) : option V :=
  match d with
  | [] => None
  | (k', v) :: rest => if decide (k' = k) then Some v else get k rest
  end.

(** [d[k] = v]: an existing key keeps its place, a new key goes last. *)
Fixpoint set {V} (k : Z) (v : V) (d : dict V) : dict V :=
  match d with
  | [] => [(k, v)]
  | (k', v') :: rest =>
    if decide (k' = k) then (k, v) :: rest else (k', v') :: set k v rest
  end.

(** [d.values()] *)
Definition values {V} (d : dict V) : list V := map snd d.

(** [d.keys()] *)
Definition keys {V} (d : dict V) : list Z := map fst d.

End PyDict.

Module Accounts.
Import Models OpenAIService.

(** A payment as [Payment.create] stores it. *)
Record Payment := {
  payment_id : Z;
  payment_user_id : Z;
  reference : string;
  amount : Q;
  currency : string;
  status : string;
  gateway_response : gmap string json;
  payment_created_at : string
}.

(** The module state that the user, profile and payment functions touch. *)
Record Db := {
  users_db : PyDict.dict User;
  profiles_db : gmap Z Profile;
  payments_db : PyDict.dict (list Payment);
  user_id_counter : Z;
  payment_id_counter : Z
}.

Definition initial_db : Db :=
  {| users_db := []; profiles_db := ∅; payments_db := [];
     user_id_counter := 1; payment_id_counter := 1 |}.

Definition get_next_user_id (db : Db) : Z * Db :=
  let current_id := user_id_counter db in
  (current_id,
   {| users_db := users_db db; profiles_db := profiles_db db;
      payments_db := payments_db db;
      user_id_counter := (user_id_counter db + 1)%Z;
      payment_id_counter := payment_id_counter db |}).

Definition get_next_payment_id (db : Db) : Z * Db :=
  let current_id := payment_id_counter db in
  (current_id,
   {| users_db := users_db db; profiles_db := profiles_db db;
      payments_db := payments_db db;
      user_id_counter := user_id_counter db;
      payment_id_counter := (payment_id_counter db + 1)%Z |}).

Definition with_users (users : PyDict.dict User) (db : Db) : Db :=
  {| users_db := users; profiles_db := profiles_db db;
     payments_db := payments_db db;
     user_id_counter := user_id_counter db;
     payment_id_counter := payment_id_counter db |}.

Definition with_profiles (profiles : gmap Z Profile) (db : Db) : Db :=
  {| users_db := users_db db; profiles_db := profiles;
     payments_db := payments_db db;
     user_id_counter := user_id_counter db;
     payment_id_counter := payment_id_counter db |}.

Definition with_payments (payments : PyDict.dict (list Payment)) (db : Db)
  : Db :=
  {| users_db := users_db db; profiles_db := profiles_db db;
     payments_db := payments;
     user_id_counter := user_id_counter db;
     payment_id_counter := payment_id_counter db |}.

(** [User.create]; [now] is [datetime.now().isoformat()]. *)
Definition user_create (now : string) (name_ email_ password_hash_ : string)
    (db : Db) : Z * Db :=
  let '(uid, db) := get_next_user_id db in
  (uid,
   with_users
     (PyDict.set uid
        {| user_id_of := uid; name := name_; email := email_;
           password_hash := password_hash_; user_created_at := now;
           is_premium := false |}
        (users_db db))
     db).

(** [User.get_by_email]: the first user, in insertion order, with this
    email. *)
Definition user_get_by_email (email_ : string) (db : Db) : option User :=
  find (fun user => bool_decide (email user = email_))
       (PyDict.values (users_db db)).

(** [User.get_by_id] *)
Definition user_get_by_id (uid : Z) (db : Db) : option User :=
  PyDict.get uid (users_db db).

Definition set_premium (flag : bool) (user : User) : User :=
  {| user_id_of := user_id_of user; name := name user; email := email user;
     password_hash := password_hash user;
     user_created_at := user_created_at user; is_premium := flag |}.

(** [User.update_premium_status] *)
Definition user_update_premium_status (uid : Z) (flag : bool) (db : Db)
  : Db :=
  match PyDict.get uid (users_db db) with
  | Some user => with_users (PyDict.set uid (set_premium flag user)
                                        (users_db db)) db
  | None => db
  end.

(** [Profile.create_or_update] *)
Definition profile_create_or_update (now : string) (uid : Z) (age_ : Z)
    (gender_ location_ exercise_frequency_ : string) (sleep_hours_ : Q)
    (diet_type_ : string) (db : Db) : Db :=
  with_profiles
    (<[uid := {| profile_user_id := uid; age := age_; gender := gender_;
                 location := location_;
                 exercise_frequency := exercise_frequency_;
                 target_sleep_hours := sleep_hours_;
                 diet_type := diet_type_; updated_at := now |}]>
       (profiles_db db))
    db.

(** [Profile.get_by_user_id] *)
Definition profile_get_by_user_id (uid : Z) (db : Db) : option Profile :=
  profiles_db db !! uid.

(** [Payment.create]; the default currency is ["NGN"]. *)
Definition payment_create (now : string) (uid : Z) (reference_ : string)
    (amount_ : Q) (currency_ : string) (db : Db) : Z * Db :=
  let '(pid, db) := get_next_payment_id db in
  let payments := payments_db db in
  let payments :=
    match PyDict.get uid payments with
    | None => PyDict.set uid [] payments
    | Some _ => payments
    end in
  let entry :=
    {| payment_id := pid; payment_user_id := uid; reference := reference_;
       amount := amount_; currency := currency_; status := "pending";
       gateway_response := ∅; payment_created_at := now |} in
  let payments :=
    PyDict.set uid (default [] (PyDict.get uid payments) ++ [entry])
               payments in
  (pid, with_payments payments db).

(** What [Payment.update_status] writes into the payment it finds;
    [gateway_response = None] leaves the stored response. *)
Definition updated (status_ : string)
    (gateway_response_ : option (gmap string json)) (p : Payment) : Payment :=
  {| payment_id := payment_id p; payment_user_id := payment_user_id p;
     reference := reference p; amount := amount p; currency := currency p;
     status := status_;
     gateway_response := default (gateway_response p) gateway_response_;
     payment_created_at := payment_created_at p |}.

(** The inner loop of [Payment.update_status] over one user's payments:
    the payment returned and the list after the update. *)
Fixpoint update_in_list (reference_ status_ : string)
    (gateway_response_ : option (gmap string json)) (ps : list Payment)
  : option (Payment * list Payment) :=
  match ps with
  | [] => None
  | p :: rest =>
    if bool_decide (reference p = reference_)
    then let p' := updated status_ gateway_response_ p in
         Some (p', p' :: rest)
    else match update_in_list reference_ status_ gateway_response_ rest with
         | Some (p', rest') => Some (p', p :: rest')
         | None => None
         end
  end.

(** The outer loop over [payments_db.values()]. *)
Fixpoint update_in_dict (reference_ status_ : string)
    (gateway_response_ : option (gmap string json))
    (d : PyDict.dict (list Payment))
  : option (Payment * PyDict.dict (list Payment)) :=
  match d with
  | [] => None
  | (uid, ps) :: rest =>
    match update_in_list reference_ status_ gateway_response_ ps with
    | Some (p', ps') => Some (p', (uid, ps') :: rest)
    | None =>
      match update_in_dict reference_ status_ gateway_response_ rest with
      | Some (p', rest') => Some (p', (uid, ps) :: rest')
      | None => None
      end
    end
  end.

(** [Payment.update_status]: the updated payment, or [None]. *)
Definition payment_update_status (reference_ status_ : string)
    (gateway_response_ : option (gmap string json)) (db : Db)
  : option Payment * Db :=
  match update_in_dict reference_ status_ gateway_response_
                       (payments_db db) with
  | Some (p', payments) => (Some p', with_payments payments db)
  | None => (None, db)
  end.

(** The loops of [Payment.get_by_reference]. *)
Fixpoint find_in_dict (reference_ : string) (d : PyDict.dict (list Payment))
  : option Payment :=
  match d with
  | [] => None
  | (_, ps) :: rest =>
    match find (fun p => bool_decide (reference p = reference_)) ps with
    | Some p => Some p
    | None => find_in_dict reference_ rest
    end
  end.

(** [Payment.get_by_reference] *)
Definition payment_get_by_reference (reference_ : string) (db : Db)
  : option Payment :=
  find_in_dict reference_ (payments_db db).

(** Every stored payment, in iteration order. *)
Definition all_payments (db : Db) : list Payment :=
  concat (PyDict.values (payments_db db)).

(** [l] with its first element that passes [test] replaced by its image
    under [f]. *)
Fixpoint update_first {A} (test : A -> bool) (f : A -> A) (l : list A)
  : list A :=
  match l with
  | [] => []
  | x :: rest =>
    if test x then f x :: rest else x :: update_first test f rest
  end.

(** The user that [User.create] stores. *)
Definition new_user (db : Db) (now name_ email_ password_hash_ : string)
  : User :=
  {| user_id_of := user_id_counter db; name := name_; email := email_;
     password_hash := password_hash_; user_created_at := now;
     is_premium := false |}.

(** The payment that [Payment.create] stores. *)
Definition new_payment (db : Db) (now : string) (uid : Z)
    (reference_ : string) (amount_ : Q) (currency_ : string) : Payment :=
  {| payment_id := payment_id_counter db; payment_user_id := uid;
     reference := reference_; amount := amount_; currency := currency_;
     status := "pending"; gateway_response := ∅;
     payment_created_at := now |}.

(** What [update_status] never writes. *)
Definition payment_core (p : Payment)
  : Z * Z * string * Q * string * string :=
  (payment_id p, payment_user_id p, reference p, amount p, currency p,
   payment_created_at p).

(** What [update_premium_status] never writes. *)
Definition user_core (u : User) : Z * string * string * string * string :=
  (user_id_of u, name u, email u, password_hash u, user_created_at u).

End Accounts.

(** ** weather_service.py: fetching a snapshot *)

Module WeatherFetch.
Import Models WeatherService.

(** [round(x)]: to the nearest integer, a tie to the even one. *)
Definition py_round (x : Q) : Z :=
  let below := Qfloor x in
  match (x - inject_Z below ?= 1 # 2)%Q with
  | Lt => below
  | Gt => (below + 1)%Z
  | Eq => if Z.even below then below else (below + 1)%Z
  end.

(** [str.title] on ASCII text: the first letter of every run of letters in
    upper case, the other letters of the run in lower case. *)
Definition is_upper (c : ascii) : bool :=
  let n := N_of_ascii c in ((65 <=? n) && (n <=? 90))%N.
Definition is_lower (c : ascii) : bool :=
  let n := N_of_ascii c in ((97 <=? n) && (n <=? 122))%N.
Definition upper_char (c : ascii) : ascii :=
  if is_lower c then ascii_of_N (N_of_ascii c - 32) else c.

Fixpoint str_title_from (previous_is_cased : bool) (s : string) : string :=
  match s with
  | EmptyString => EmptyString
  | String c rest =>
    if is_lower c then
      String (if previous_is_cased then c else upper_char c)
             (str_title_from true rest)
    else if is_upper c then
      String (if previous_is_cased then Py.lower_char c else c)
             (str_title_from true rest)
    else String c (str_title_from false rest)
  end.

Definition str_title (s : string) : string := str_title_from false s.

(** [d[key]] on a key that may be missing *)
Definition key {A} (value : option A) : Py.result A :=
  match value with
  | Some a => Py.Ok a
  | None => Py.Raise Py.KeyError
  end.

(** The provider's payload; a missing key is [None]. The values are taken
    to have the provider's types (numbers and strings). *)
Record PayloadSys := { sys_country : option string }.

Record PayloadMain := {
  main_temp : option Q;
  main_feels_like : option Q;
  main_humidity : option Q;
  main_pressure : option Q
}.

Record PayloadWeather := {
  weather_main : option string;
  weather_description : option string;
  weather_icon : option string
}.

Record PayloadWind := { wind_speed : option Q }.

Record Payload := {
  payload_name : option string;
  payload_sys : option PayloadSys;
  payload_main : option PayloadMain;
  payload_weather : option (list PayloadWeather);
  payload_wind : option PayloadWind;
  payload_visibility : option Q
}.

(** A snapshot with every key that [get_weather_data] and
    [get_mock_weather_data] write; [mock_data] is written by the mock
    only. *)
Record SnapshotCurrent := {
  sc_temp : Z;
  sc_feels_like : Z;
  sc_humidity : Q;
  sc_pressure : Q;
  sc_description : string;
  sc_icon : string;
  sc_wind_speed : Q;
  sc_visibility : Q
}.

Record Snapshot := {
  sn_location : string;
  sn_country : string;
  sn_current : SnapshotCurrent;
  sn_risk_indicators : gmap string string;
  sn_mock_data : option bool
}.

(** The snapshot as the generators read it. *)
Definition view (s : Snapshot) : WeatherData :=
  {| wd_location := Some (sn_location s);
     wd_country := Some (sn_country s);
     wd_current :=
       Some {| cur_temp := Some (inject_Z (sc_temp (sn_current s)));
               cur_humidity := Some (sc_humidity (sn_current s));
               cur_description := Some (sc_description (sn_current s)) |};
     wd_risk_indicators := Some (sn_risk_indicators s);
     wd_mock_data := sn_mock_data s |}.

Definition get_mock_weather_data (location_ : string) : Snapshot :=
  {| sn_location := location_;
     sn_country := "NG";
     sn_current :=
       {| sc_temp := 28; sc_feels_like := 32; sc_humidity := 75;
          sc_pressure := 1013; sc_description := "Partly Cloudy";
          sc_icon := "02d"; sc_wind_speed := 25 # 10; sc_visibility := 10 |};
     sn_risk_indicators :=
       <["dehydration_risk" := "moderate"]>
         (<["air_quality" := "moderate"]>
            (<["uv_risk" := "high"]>
               (<["heat_stress" := "moderate"]> ∅)));
     sn_mock_data := Some true |}.

(** The argument that [get_weather_data] passes to
    [calculate_health_risks]: the payload again, of which the classifier
    reads the [main] block and the first weather entry. *)
Definition classifier_input (data : Payload) : Py.result OwmData :=
  main ← key (payload_main data);
  temp ← key (main_temp main);
  humidity ← key (main_humidity main);
  feels_like ← key (main_feels_like main);
  entries ← key (payload_weather data);
  first ← Py.index0 entries;
  weather_main_ ← key (weather_main first);
  mret {| owm_main := {| owm_temp := temp; owm_humidity := humidity;
                         owm_feels_like := feels_like |};
          owm_weather := [weather_main_] |}.

(** The dict that [get_weather_data] builds from a payload, key by key. *)
Definition weather_info (data : Payload) : Py.result Snapshot :=
  location_ ← key (payload_name data);
  sys ← key (payload_sys data);
  country ← key (sys_country sys);
  main ← key (payload_main data);
  temp ← key (main_temp main);
  feels_like ← key (main_feels_like main);
  humidity ← key (main_humidity main);
  pressure ← key (main_pressure main);
  entries ← key (payload_weather data);
  first ← Py.index0 entries;
  description ← key (weather_description first);
  icon_ ← key (weather_icon first);
  let wind := default {| wind_speed := None |} (payload_wind data) in
  let speed := default 0%Q (wind_speed wind) in
  let visibility := (default 10000%Q (payload_visibility data) / 1000)%Q in
  input ← classifier_input data;
  risks ← calculate_health_risks input;
  mret {| sn_location := location_;
          sn_country := country;
          sn_current :=
            {| sc_temp := py_round temp;
               sc_feels_like := py_round feels_like;
               sc_humidity := humidity;
               sc_pressure := pressure;
               sc_description := str_title description;
               sc_icon := icon_;
               sc_wind_speed := speed;
               sc_visibility := visibility |};
          sn_risk_indicators := risks;
          sn_mock_data := None |}.

(** What [requests.get] gives back; [response_json] is [response.json()],
    which may raise. *)
Record HttpResponse := {
  status_code : Z;
  response_json : Py.result Payload
}.

(** The provider: for the location asked, a response or an exception
    (timeout, connection error...). *)
Definition Provider : Type := string -> Py.result HttpResponse.

(** [if not OPENWEATHER_API_KEY]: the variable is unset or empty *)
Definition key_missing (api_key : option string) : bool :=
  match api_key with
  | Some (String _ _) => false
  | _ => true
  end.

(** [get_weather_data]: the snapshot returned and the locations requested
    from the provider. *)
Definition get_weather_data (api_key : option string) (provider : Provider)
    (location_ : string) : Snapshot * list string :=
  if key_missing api_key then (get_mock_weather_data location_, [])
  else
    let body : Py.result Snapshot :=
      response ← provider location_;
      if (status_code response =? 200)%Z then
        data ← response_json response;
        weather_info data
      else mret (get_mock_weather_data location_) in
    match body with
    | Py.Ok snapshot => (snapshot, [location_])
    | Py.Raise _ => (get_mock_weather_data location_, [location_])
    end.

(** A payload with every key, and providers for the examples. *)
Definition sample_payload (temp feels_like humidity : Q)
    (main_ description : string) : Payload :=
  {| payload_name := Some "Lagos";
     payload_sys := Some {| sys_country := Some "NG" |};
     payload_main :=
       Some {| main_temp := Some temp; main_feels_like := Some feels_like;
               main_humidity := Some humidity;
               main_pressure := Some 1011%Q |};
     payload_weather :=
       Some [{| weather_main := Some main_;
                weather_description := Some description;
                weather_icon := Some "01d" |}];
     payload_wind := None;
     payload_visibility := None |}.

Definition answering (data : Payload) : Provider :=
  fun _ => Py.Ok {| status_code := 200; response_json := Py.Ok data |}.

End WeatherFetch.

(** ** health_api.py: the chart data *)

Module HealthApi.
Import Models.

(** [sorted(logs, key=lambda x: x['date'])]: a stable sort, smaller dates
    first. *)
Fixpoint insert_asc (x : Log) (l : list Log) : list Log :=
  match l with
  | [] => [x]
  | y :: ys =>
    if String.ltb (date y) (date x) then y :: insert_asc x ys
    else x :: y :: ys
  end.

Fixpoint sorted_by_date_asc (l : list Log) : list Log :=
  match l with
  | [] => []
  | x :: xs => insert_asc x (sorted_by_date_asc xs)
  end.

(** The [chart_data] dict. *)
Record ChartData := {
  labels : list string;
  sleep_data : list Q;
  exercise_data : list Z;
  water_data : list Z
}.

(** The body of [get_lifestyle_chart_data] for the user of the session:
    the dict that is sent back with status 200. *)
Definition lifestyle_chart_data (st : Storage) (uid : Z) : ChartData :=
  let logs := get_by_user_id st uid (Some 7%Z) in
  let chart_data :=
    {| labels := []; sleep_data := []; exercise_data := [];
       water_data := [] |} in
  let logs_sorted := sorted_by_date_asc logs in
  fold_left
    (fun chart_data log =>
       {| labels := labels chart_data ++ [date log];
          sleep_data := sleep_data chart_data ++ [sleep_hours log];
          exercise_data := exercise_data chart_data ++ [exercise_minutes log];
          water_data := water_data chart_data ++ [water_glasses log] |})
    logs_sorted chart_data.

End HealthApi.

(** ** auth.py: registration and login *)

Module Auth.
Import Models OpenAIService Accounts.

(** The Flask session, as far as the handlers use it. *)
Record Session := {
  session_user_id : option Z;
  session_user_email : option string
}.

Definition empty_session : Session :=
  {| session_user_id := None; session_user_email := None |}.

(** The JSON body of a registration request; a missing key is [None].
    [age] and [sleep_hours] are JSON values that [int] and [float] convert;
    the other values are taken to be strings. *)
Record RegisterData := {
  rd_name : option string;
  rd_email : option string;
  rd_password : option string;
  rd_age : option json;
  rd_gender : option string;
  rd_location : option string;
  rd_exercise_frequency : option string;
  rd_sleep_hours : option json;
  rd_diet_type : option string
}.

(** The JSON body of a login request. *)
Record LoginData := {
  ld_email : option string;
  ld_password : option string
}.

(** What a handler sends back: the status code, the [error] or [message]
    text and, when there is one, the [user_id]. *)
Record Reply := {
  reply_code : Z;
  reply_text : string;
  reply_user_id : option Z
}.

Definition error (code : Z) (text : string) : Reply :=
  {| reply_code := code; reply_text := text; reply_user_id := None |}.

(** [required_fields], with what the request holds for each. *)
Definition required_fields (data : RegisterData) : list (string * bool) :=
  [("name", bool_decide (is_Some (rd_name data)));
   ("email", bool_decide (is_Some (rd_email data)));
   ("password", bool_decide (is_Some (rd_password data)));
   ("age", bool_decide (is_Some (rd_age data)));
   ("gender", bool_decide (is_Some (rd_gender data)));
   ("location", bool_decide (is_Some (rd_location data)));
   ("exercise_frequency",
    bool_decide (is_Some (rd_exercise_frequency data)));
   ("sleep_hours", bool_decide (is_Some (rd_sleep_hours data)));
   ("diet_type", bool_decide (is_Some (rd_diet_type data)))].

(** The first required field that is not in the request. *)
Definition first_missing (data : RegisterData) : option string :=
  fst <$> find (fun field => negb (snd field)) (required_fields data).

(** a string that is [None] or empty is false *)
Definition falsy (s : option string) : bool :=
  match s with
  | Some (String _ _) => false
  | _ => true
  end.

Section Handlers.

(** werkzeug's [generate_password_hash] and [check_password_hash], and
    Python's [int] and [float] on a JSON value. *)
Variable generate_password_hash : string -> string.
Variable check_password_hash : string -> string -> bool.
Variable py_int : json -> Py.result Z.
Variable py_float : json -> Py.result Q.

(** The store after the [User.create] of a registration request. *)
Definition with_new_user (now_user : string) (data : RegisterData) (db : Db)
  : Db :=
  snd (user_create now_user
         (default EmptyString (rd_name data))
         (default EmptyString (rd_email data))
         (generate_password_hash (default EmptyString (rd_password data)))
         db).

(** [register]: the reply, the store and the session afterwards.
    [now_user] and [now_profile] are the two readings of the clock. An
    exception anywhere gives status 500 and keeps what was written before
    it. *)
Definition register (now_user now_profile : string)
    (data : option RegisterData) (db : Db) (session : Session)
  : Reply * Db * Session :=
  let failed := error 500 "Registration failed" in
  match data with
  | None => (failed, db, session)
  | Some data =>
    match first_missing data with
    | Some field =>
      (error 400 ("Missing required field: " +:+ field), db, session)
    | None =>
      let name_ := default EmptyString (rd_name data) in
      let email_ := default EmptyString (rd_email data) in
      let password := default EmptyString (rd_password data) in
      match user_get_by_email email_ db with
      | Some _ => (error 400 "Email already registered", db, session)
      | None =>
        let password_hash_ := generate_password_hash password in
        let '(uid, db) := user_create now_user name_ email_ password_hash_
                                      db in
        match py_int (default JNull (rd_age data)) with
        | Py.Raise _ => (failed, db, session)
        | Py.Ok age_ =>
          match py_float (default JNull (rd_sleep_hours data)) with
          | Py.Raise _ => (failed, db, session)
          | Py.Ok sleep_ =>
            let db :=
              profile_create_or_update now_profile uid age_
                (default EmptyString (rd_gender data))
                (default EmptyString (rd_location data))
                (default EmptyString (rd_exercise_frequency data))
                sleep_
                (default EmptyString (rd_diet_type data)) db in
            let session :=
              {| session_user_id := Some uid;
                 session_user_email := Some email_ |} in
            ({| reply_code := 201;
                reply_text := "User registered successfully";
                reply_user_id := Some uid |}, db, session)
          end
        end
      end
    end
  end.

(** [login]: the reply and the session afterwards; the store is only
    read. *)
Definition login (data : option LoginData) (db : Db) (session : Session)
  : Reply * Session :=
  match data with
  | None => (error 500 "Login failed", session)
  | Some data =>
    if falsy (ld_email data) || falsy (ld_password data) then
      (error 400 "Email and password required", session)
    else
      let email_ := default EmptyString (ld_email data) in
      let password := default EmptyString (ld_password data) in
      match user_get_by_email email_ db with
      | None => (error 401 "Invalid email or password", session)
      | Some user =>
        if negb (check_password_hash (password_hash user) password) then
          (error 401 "Invalid email or password", session)
        else
          ({| reply_code := 200; reply_text := "Login successful";
              reply_user_id := Some (user_id_of user) |},
           {| session_user_id := Some (user_id_of user);
              session_user_email := Some (email user) |})
      end
  end.

(** [logout] *)
Definition logout (session : Session) : Reply * Session :=
  ({| reply_code := 200; reply_text := "Logout successful";
      reply_user_id := None |}, empty_session).

(** The stores reached from the initial one by registration requests. *)
Inductive registered : Db -> Prop :=
| registered_initial : registered initial_db
| registered_step now_user now_profile data db session :
    registered db ->
    registered (snd (fst (register now_user now_profile data db session))).

End Handlers.

(** Every user is filed under its own id, the ids were issued by the
    counter, and no two users share an email. *)
Definition unique_emails (db : Db) : Prop :=
  (1 <= user_id_counter db)%Z /\
  Forall (fun entry => user_id_of (snd entry) = fst entry /\
                       (1 <= fst entry < user_id_counter db)%Z)
         (users_db db) /\
  NoDup (map email (PyDict.values (users_db db))).

(** A complete registration request. *)
Definition sample_registration (email_ : string) (age_ : json)
  : RegisterData :=
  {| rd_name := Some "Ada"; rd_email := Some email_;
     rd_password := Some "secret"; rd_age := Some age_;
     rd_gender := Some "female"; rd_location := Some "Lagos";
     rd_exercise_frequency := Some "moderate";
     rd_sleep_hours := Some (JNum 8); rd_diet_type := Some "balanced" |}.

(** Conversions and hashes for the examples: numbers convert, anything
    else raises; the hash is the password with a prefix. *)
Definition sample_int (v : json) : Py.result Z :=
  match v with
  | JNum q => Py.Ok (Qfloor q)
  | _ => Py.Raise Py.APIError
  end.
Definition sample_float (v : json) : Py.result Q :=
  match v with
  | JNum q => Py.Ok q
  | _ => Py.Raise Py.APIError
  end.
Definition sample_hash (password : string) : string := "h$" +:+ password.
Definition sample_check (hash password : string) : bool :=
  String.eqb hash (sample_hash password).

End Auth.

(** ** payments.py: verification and the webhook *)

Module Payments.
Import Models OpenAIService Accounts Auth.

(** What [requests.get] on the verification URL gives back;
    [gateway_json] is [response.json()], which may raise. *)
Record GatewayResponse := {
  gateway_status_code : Z;
  gateway_json : Py.result (gmap string json)
}.

(** The gateway: for the reference asked, a response or an exception. *)
Definition Gateway : Type := string -> Py.result GatewayResponse.

(** [request.args.get('mock', 'false').lower() == 'true'] *)
Definition mock_mode_of (mock : option string) : bool :=
  String.eqb (Py.lower (default "false" mock)) "true".

(** [response_data['data']]: the key must be there; its value is an
    object, on which [['status']] is read next. *)
Definition data_of (response_data : gmap string json)
  : Py.result (gmap string json) :=
  match response_data !! "data" with
  | None => Py.Raise Py.KeyError
  | Some (JObj d) => Py.Ok d
  | Some _ => Py.Raise Py.AttributeError
  end.

(** [value == text] for a JSON value and a string *)
Definition is_str (value : json) (text : string) : bool :=
  match value with
  | JStr s => String.eqb s text
  | _ => false
  end.

Definition mock_gateway_response : gmap string json :=
  {[ "gateway_response" := JStr "Approved (Mock)" ]}.

(** [verify_payment], behind [require_login]: the status code, the store
    afterwards and the references asked of the gateway. [secret_key] is
    [PAYSTACK_SECRET_KEY]; [reference_] and [mock] are the query
    parameters. *)
Definition verify_payment (secret_key : option string) (gateway : Gateway)
    (session : Session) (reference_ mock : option string) (db : Db)
  : Z * Db * list string :=
  match session_user_id session with
  | None => (401%Z, db, [])
  | Some _ =>
    let mock_mode := mock_mode_of mock in
    if falsy reference_ then (400%Z, db, []) else
    let ref := default EmptyString reference_ in
    match payment_get_by_reference ref db with
    | None => (404%Z, db, [])
    | Some payment =>
      if mock_mode || falsy secret_key then
        let db := snd (payment_update_status ref "success"
                         (Some mock_gateway_response) db) in
        let db := user_update_premium_status (payment_user_id payment)
                                             true db in
        (200%Z, db, [])
      else
        match gateway ref with
        | Py.Raise _ => (500%Z, db, [ref])
        | Py.Ok response =>
          if (gateway_status_code response =? 200)%Z then
            match gateway_json response with
            | Py.Raise _ => (500%Z, db, [ref])
            | Py.Ok response_data =>
              match data_of response_data with
              | Py.Raise _ => (500%Z, db, [ref])
              | Py.Ok d =>
                match d !! "status" with
                | None => (500%Z, db, [ref])
                | Some status_ =>
                  if is_str status_ "success" then
                    let db := snd (payment_update_status ref "success"
                                     (Some d) db) in
                    let db := user_update_premium_status
                                (payment_user_id payment) true db in
                    (200%Z, db, [ref])
                  else
                    let db := snd (payment_update_status ref "failed"
                                     (Some d) db) in
                    (400%Z, db, [ref])
                end
              end
            end
          else (500%Z, db, [ref])
        end
    end
  end.

(** [paystack_webhook]: no login and no signature are asked for.
    [event_data] is the JSON body, [None] when there is none. *)
Definition paystack_webhook (event_data : option (gmap string json))
    (db : Db) : Z * Db :=
  match event_data with
  | None => (500%Z, db)
  | Some event_data =>
    match event_data !! "event" with
    | None => (500%Z, db)
    | Some event =>
      if is_str event "charge.success" then
        match data_of event_data with
        | Py.Raise _ => (500%Z, db)
        | Py.Ok d =>
          match d !! "reference" with
          | None => (500%Z, db)
          | Some (JStr ref) =>
            match payment_get_by_reference ref db with
            | Some payment =>
              let db := snd (payment_update_status ref "success" (Some d)
                                                   db) in
              let db := user_update_premium_status
                          (payment_user_id payment) true db in
              (200%Z, db)
            | None => (200%Z, db)
            end
          | Some _ => (200%Z, db)
          end
        end
      else (200%Z, db)
    end
  end.

(** A store with one user and one pending payment of hers, and the event
    that reports the charge. *)
Definition one_payment_db : Db :=
  snd (payment_create "2024-05-04T09:00:00" 1 "HC_1_ab12" 50 "NGN"
         (snd (user_create "2024-05-04T08:00:00" "Ada" "ada@example.org"
                           "hash" initial_db))).

Definition charge_data : gmap string json :=
  <["reference" := JStr "HC_1_ab12"]> (<["status" := JStr "success"]> ∅).

Definition charge_success_event : gmap string json :=
  <["event" := JStr "charge.success"]> (<["data" := JObj charge_data]> ∅).

(** The premium flag of a user, [None] for an unknown id. *)
Definition premium_of (uid : Z) (db : Db) : option bool :=
  is_premium <$> user_get_by_id uid db.

(** The status of the payment that a reference leads to. *)
Definition status_of (reference_ : string) (db : Db) : option string :=
  status <$> payment_get_by_reference reference_ db.

End Payments.

(** ** health_api.py: the tips, alerts and chat handlers *)

Module HealthHandlers.
Import Models WeatherService OpenAIService Accounts WeatherFetch Auth.

(** What the handlers reach outside the request: the two stores, the
    weather provider with its key, and the AI client. *)
Record Env := {
  env_logs : Storage;
  env_db : Db;
  env_weather_key : option string;
  env_provider : Provider;
  env_openai_client : option Client
}.

(** The JSON that a handler sends back. *)
Inductive Body : Type :=
| BodyTips (tips : json)
| BodyAlerts (alerts : list Alert)
| BodyResponse (response : string)
| BodyError (error : string).

(** The reply of a handler, with the locations it asked the weather
    provider for and the requests it sent to the AI. *)
Record HandlerReply := {
  hr_code : Z;
  hr_body : Body;
  hr_weather_requests : list string;
  hr_ai_requests : list Request
}.

(** [require_login] turning a request away. *)
Definition authentication_required : HandlerReply :=
  {| hr_code := 401; hr_body := BodyError "Authentication required";
     hr_weather_requests := []; hr_ai_requests := [] |}.

(** [profile.get('location', 'Lagos') if profile else 'Lagos'] *)
Definition location_of (profile : option Profile) : string :=
  match profile with
  | Some p => location p
  | None => "Lagos"
  end.

Section Handlers.

Variable str_float : Q -> string.
Variable json_loads : string -> Py.result json.


(** [alerts] *)
Definition alerts (env : Env) (session : Session) : HandlerReply :=
  match session_user_id session with
  | None => authentication_required
  | Some uid =>
    let user := user_get_by_id uid (env_db env) in
    let profile := profile_get_by_user_id uid (env_db env) in
    let recent_logs := get_by_user_id (env_logs env) uid (Some 3%Z) in
    let location_ := location_of profile in
    let '(weather_data, asked) :=
      get_weather_data (env_weather_key env) (env_provider env) location_ in
    match get_health_alerts user profile recent_logs
                            (Some (view weather_data)) with
    | Py.Ok alerts_ =>
      {| hr_code := 200; hr_body := BodyAlerts alerts_;
         hr_weather_requests := asked; hr_ai_requests := [] |}
    | Py.Raise _ =>
      {| hr_code := 500; hr_body := BodyError "Failed to get health alerts";
         hr_weather_requests := asked; hr_ai_requests := [] |}
    end
  end.


End Handlers.

End HealthHandlers.

(** * Properties *)

Import Models WeatherService OpenAIService Spec.

(** ** Numbers, lists and strings *)

Lemma gt_true (x y : Q) : Py.gt x y = true <-> (y < x)%Q.
Proof.
  unfold Py.gt. rewrite Qlt_alt.
  destruct (y ?= x)%Q; split; congruence.
Qed.

Lemma gt_false (x y : Q) : Py.gt x y = false <-> (x <= y)%Q.
Proof.
  unfold Py.gt. rewrite (Qle_alt x y), <- (Qcompare_antisym y x).
  destruct (y ?= x)%Q; simpl; split; congruence.
Qed.

Lemma lt_true (x y : Q) : Py.lt x y = true <-> (x < y)%Q.
Proof. apply gt_true. Qed.

Lemma lt_false (x y : Q) : Py.lt x y = false <-> (y <= x)%Q.
Proof. apply gt_false. Qed.

(** Turns the outcome of every comparison in the context into an
    inequality of [Q]. *)
Ltac order_facts :=
  repeat match goal with
  | H : Py.gt _ _ = true |- _ => apply gt_true in H
  | H : Py.gt _ _ = false |- _ => apply gt_false in H
  | H : Py.lt _ _ = true |- _ => apply lt_true in H
  | H : Py.lt _ _ = false |- _ => apply lt_false in H
  end.

Lemma gt_compat (x x' y : Q) : (x == x')%Q -> Py.gt x y = Py.gt x' y.
Proof.
  intros E. destruct (Py.gt x y) eqn:H1, (Py.gt x' y) eqn:H2;
    try reflexivity; order_facts; lra.
Qed.

Lemma lt_compat (x x' y : Q) : (x == x')%Q -> Py.lt x y = Py.lt x' y.
Proof.
  intros E. destruct (Py.lt x y) eqn:H1, (Py.lt x' y) eqn:H2;
    try reflexivity; order_facts; lra.
Qed.

Lemma min_len_nonzero {A} (l : list A) (k : nat) :
  Py.truthy_list l = true -> (0 < k)%nat ->
  Qeq_bool (Py.min_len l k) 0 = false.
Proof.
  intros Hl Hk. destruct l as [|a l]; [discriminate|].
  apply not_true_is_false. intros E. apply Qeq_bool_iff in E.
  unfold Py.min_len, Qeq in E. cbn [Qnum Qden inject_Z length] in E. lia.
Qed.

Lemma truediv_ok {A} (x : Q) (l : list A) (k : nat) :
  Py.truthy_list l = true -> (0 < k)%nat ->
  Py.truediv x (Py.min_len l k) = Py.Ok (x / Py.min_len l k)%Q.
Proof.
  intros Hl Hk. unfold Py.truediv. now rewrite min_len_nonzero.
Qed.

(** ** The weather risk classifier *)

Lemma insert_if (c : bool) (k a b : string) (m : gmap string string) :
  (if c then <[k:=a]> m else <[k:=b]> m) = <[k:=if c then a else b]> m.
Proof. now destruct c. Qed.

(** Splits on every comparison in the goal and settles the resulting
    order facts. *)
Ltac tiers :=
  repeat match goal with
  | |- context [Py.gt ?a ?b] => destruct (Py.gt a b) eqn:?
  | |- context [Py.contains ?a ?b] => destruct (Py.contains a b) eqn:?
  end;
  order_facts; cbn [andb orb];
  intuition (try congruence; try discriminate; try lra).

(** C1, as amended: for every input tuple the classifier returns the four
    risk levels fixed by the thresholds, every comparison strict; the UV
    rule looks for "clear" in the lowercased description. *)
Theorem calculate_health_risks_thresholds
    (temp feels_like humidity : Q) (description : string) :
  exists risks : gmap string string,
    calculate_health_risks (owm_input temp feels_like humidity description)
      = Py.Ok risks /\
    dom risks = {[ "heat_stress"; "uv_risk"; "air_quality";
                   "dehydration_risk" ]} /\
    ((risks !! "heat_stress" = Some "high" <-> (35 < feels_like)%Q) /\
     (risks !! "heat_stress" = Some "moderate" <->
        (30 < feels_like)%Q /\ (feels_like <= 35)%Q) /\
     (risks !! "heat_stress" = Some "low" <-> (feels_like <= 30)%Q)) /\
    ((risks !! "uv_risk" = Some "high" <->
        Py.contains "clear" (Py.lower description) = true /\ (25 < temp)%Q) /\
     (risks !! "uv_risk" = Some "moderate" <->
        ~ (Py.contains "clear" (Py.lower description) = true /\
           (25 < temp)%Q) /\ (20 < temp)%Q) /\
     (risks !! "uv_risk" = Some "low" <-> (temp <= 20)%Q)) /\
    ((risks !! "air_quality" = Some "poor" <-> (80 < humidity)%Q) /\
     (risks !! "air_quality" = Some "moderate" <->
        (60 < humidity)%Q /\ (humidity <= 80)%Q) /\
     (risks !! "air_quality" = Some "good" <-> (humidity <= 60)%Q)) /\
    ((risks !! "dehydration_risk" = Some "high" <->
        (32 < temp)%Q \/ ((28 < temp)%Q /\ (70 < humidity)%Q)) /\
     (risks !! "dehydration_risk" = Some "moderate" <->
        ~ ((32 < temp)%Q \/ ((28 < temp)%Q /\ (70 < humidity)%Q)) /\
        (25 < temp)%Q) /\
     (risks !! "dehydration_risk" = Some "low" <-> (temp <= 25)%Q)).
Proof.
  unfold calculate_health_risks, owm_input.
  cbn [owm_main owm_weather owm_temp owm_humidity owm_feels_like].
  eexists. split; [reflexivity|].
  rewrite !insert_if.
  split; [rewrite !dom_insert_L, dom_empty_L; set_solver|].
  repeat match goal with |- _ /\ _ => split end;
    rewrite ?lookup_insert_ne by done; rewrite lookup_insert_eq; tiers.
Qed.

(** The description is lowercased before the search, so the claim read on
    the raw description fails on the provider's own spelling. *)
Lemma calculate_health_risks_raw_description :
  exists risks : gmap string string,
    calculate_health_risks (owm_input 26 26 50 "Clear") = Py.Ok risks /\
    ~ (risks !! "uv_risk" = Some "high" <->
       Py.contains "clear" "Clear" = true /\ (25 < 26)%Q).
Proof.
  eexists. split; [reflexivity|].
  intros [H _]. destruct H as [H _]; [reflexivity|].
  vm_compute in H. discriminate.
Qed.

(** Only the first entry of the payload's weather list is read, and an
    empty list raises. *)
Lemma calculate_health_risks_first_entry main description rest :
  calculate_health_risks
    {| owm_main := main; owm_weather := description :: rest |} =
  calculate_health_risks
    (owm_input (owm_temp main) (owm_feels_like main) (owm_humidity main)
               description).
Proof. reflexivity. Qed.

Lemma calculate_health_risks_no_entry main :
  calculate_health_risks {| owm_main := main; owm_weather := [] |} =
  Py.Raise Py.IndexError.
Proof. reflexivity. Qed.

Example boundary_feels_like_35_30 :
  levels 25 35 60 "Clear" =
    [Some "moderate"; Some "moderate"; Some "good"; Some "low"] /\
  levels 20 30 80 "Clear" =
    [Some "low"; Some "low"; Some "moderate"; Some "low"].
Proof. split; vm_compute; reflexivity. Qed.

Example boundary_temp_32_28_humidity_70 :
  levels 32 0 70 "Clouds" =
    [Some "low"; Some "moderate"; Some "moderate"; Some "moderate"] /\
  levels 28 0 90 "Clouds" =
    [Some "low"; Some "moderate"; Some "poor"; Some "moderate"].
Proof. split; vm_compute; reflexivity. Qed.

(** ** The alert generator *)

Lemma bind_ok {A B} (a : A) (k : A -> Py.result B) :
  (Py.Ok a ≫= k) = k a.
Proof. reflexivity. Qed.

Lemma alert_elem_of_bool (a : Alert) (l : list Alert) :
  a ∈ l -> bool_decide (a ∈ l) = true.
Proof. intros H. now apply bool_decide_eq_true. Qed.




Lemma truthy_current (wd : WeatherData) :
  is_Some (wd_current wd) -> truthy (Some wd) = true.
Proof.
  intros [c Hc]. unfold truthy, dict_truthy. rewrite Hc.
  rewrite (bool_decide_eq_true_2 (is_Some (Some c))) by eauto.
  now rewrite !orb_true_r.
Qed.

Lemma risk_is_true risks key value :
  risks !! key = Some value -> risk_is risks key value = true.
Proof. intros H. unfold risk_is. now apply bool_decide_eq_true. Qed.

Lemma truediv_average (f : Log -> Q) (k : nat) (logs : list Log) :
  Py.truthy_list logs = true -> (0 < k)%nat ->
  Py.truediv (Py.sum (map f (Py.slice_to k logs))) (Py.min_len logs k)
  = Py.Ok (average f k logs).
Proof. intros. unfold average. now apply truediv_ok. Qed.

(** C3: at 36 degrees and 90% humidity, with high UV, poor air, high
    dehydration risk and three logs averaging 70 exercise minutes, the
    generator returns the six alerts below in this order, without the heat
    advisory. *)
Theorem get_health_alerts_six user profile (recent_logs : list Log)
    (wd : WeatherData) (current : Current) (risks : gmap string string) :
  length recent_logs = 3%nat ->
  (average exercise_of 3 recent_logs == 70)%Q ->
  wd_current wd = Some current ->
  cur_temp current = Some 36%Q ->
  cur_humidity current = Some 90%Q ->
  wd_risk_indicators wd = Some risks ->
  risks !! "uv_risk" = Some "high" ->
  risks !! "air_quality" = Some "poor" ->
  risks !! "dehydration_risk" = Some "high" ->
  get_health_alerts user profile recent_logs (Some wd) = Py.Ok six_alerts /\
  map (fun a => (title a, alert_type a)) six_alerts =
    [("Extreme Heat Alert", "warning"); ("High Humidity Alert", "info");
     ("Dehydration Risk", "warning"); ("High UV Index", "caution");
     ("Air Quality Advisory", "caution"); ("Exercise Adjustment", "info")] /\
  heat_advisory ∉ six_alerts.
Proof.
  intros Hlen Havg Hcur Htemp Hhum Hrisks Huv Hair Hdehyd.
  split; [|split; [reflexivity|]].
  - unfold get_health_alerts.
    rewrite truthy_current by (rewrite Hcur; eauto).
    cbn [negb].
    change (Some wd ≫= wd_current) with (wd_current wd).
    change (Some wd ≫= wd_risk_indicators) with (wd_risk_indicators wd).
    rewrite Hcur, Hrisks. cbn [from_option id].
    rewrite Htemp, Hhum. cbn [from_option id].
    rewrite !risk_is_true by assumption.
    assert (Hl : Py.truthy_list recent_logs = true)
      by (destruct recent_logs; [discriminate|reflexivity]).
    rewrite Hl.
    change (sum_exercise (Py.slice_to 3 recent_logs))
      with (Py.sum (map exercise_of (Py.slice_to 3 recent_logs))).
    rewrite truediv_average by (auto; lia). rewrite bind_ok.
    rewrite (gt_compat _ _ _ Havg). reflexivity.
  - intros H. apply alert_elem_of_bool in H. vm_compute in H. discriminate.
Qed.

Lemma get_health_alerts_six_witness :
  get_health_alerts None None
    [sample_log "2024-05-04" 8 60 8; sample_log "2024-05-03" 7 70 8;
     sample_log "2024-05-02" 7 80 8]
    (Some (sample_weather 36 90 sample_risks)) = Py.Ok six_alerts.
Proof.
  refine (proj1 (get_health_alerts_six None None
    [sample_log "2024-05-04" 8 60 8; sample_log "2024-05-03" 7 70 8;
     sample_log "2024-05-02" 7 80 8]
    (sample_weather 36 90 sample_risks)
    {| cur_temp := Some 36%Q; cur_humidity := Some 90%Q;
       cur_description := Some "Clear Sky" |}
    sample_risks _ _ _ _ _ _ _ _ _));
    try reflexivity; vm_compute; reflexivity.
Defined.

(** ** The rule-based tip generator *)






(** C4: for averages of 5 hours of sleep, 10 minutes of exercise and 3
    glasses of water, at 32 degrees and 85% humidity, the generator returns
    the five rule tips below in this order and none of the filler. *)
Theorem get_fallback_health_tips_five user profile (recent_logs : list Log)
    (wd : WeatherData) (current : Current) :
  recent_logs <> [] ->
  (average sleep_hours 7 recent_logs == 5)%Q ->
  (average exercise_of 7 recent_logs == 10)%Q ->
  (average water_of 7 recent_logs == 3)%Q ->
  wd_current wd = Some current ->
  cur_temp current = Some 32%Q ->
  cur_humidity current = Some 85%Q ->
  get_fallback_health_tips user profile recent_logs (Some wd) =
    Py.Ok [tip_low_sleep; tip_low_activity; tip_hydration; tip_heat;
           tip_humidity] /\
  Forall (fun f => f ∉ [tip_low_sleep; tip_low_activity; tip_hydration;
                         tip_heat; tip_humidity]) general_wellness_tips.
Proof.
  intros Hne Hsleep Hexercise Hwater Hcur Htemp Hhum.
  split; [|repeat constructor; compute_done].
  assert (Hl : Py.truthy_list recent_logs = true)
    by (destruct recent_logs; [congruence|reflexivity]).
  unfold get_fallback_health_tips, rule_tips.
  rewrite Hl, truthy_current by (rewrite Hcur; eauto).
  change (Some wd ≫= wd_current) with (wd_current wd).
  rewrite Hcur, Htemp, Hhum. cbn [from_option id].
  rewrite (truediv_average sleep_hours) by (auto; lia).
  rewrite (truediv_average exercise_of) by (auto; lia).
  rewrite (truediv_average water_of) by (auto; lia).
  rewrite !bind_ok.
  rewrite (lt_compat _ _ _ Hsleep), (lt_compat _ _ _ Hexercise),
    (lt_compat _ _ _ Hwater).
  reflexivity.
Qed.

Lemma get_fallback_health_tips_five_witness :
  get_fallback_health_tips None None
    [sample_log "2024-05-04" 4 0 2; sample_log "2024-05-03" 6 20 4]
    (Some (sample_weather 32 85 sample_risks)) =
  Py.Ok [tip_low_sleep; tip_low_activity; tip_hydration; tip_heat;
         tip_humidity].
Proof.
  refine (proj1 (get_fallback_health_tips_five None None
    [sample_log "2024-05-04" 4 0 2; sample_log "2024-05-03" 6 20 4]
    (sample_weather 32 85 sample_risks)
    {| cur_temp := Some 32%Q; cur_humidity := Some 85%Q;
       cur_description := Some "Clear Sky" |} _ _ _ _ _ _ _));
    try reflexivity; try discriminate; vm_compute; reflexivity.
Defined.



(** ** The chat fallback *)

Lemma append_cons (a : ascii) (s t : string) :
  String a s +:+ t = String a (s +:+ t).
Proof. reflexivity. Qed.

Lemma prefix_spec (w s : string) :
  String.prefix w s = true <-> exists post, s = w +:+ post.
Proof.
  revert s. induction w as [|a w IH]; intros s.
  - destruct s; cbn; split; eauto.
  - destruct s as [|b s]; cbn.
    + split; [discriminate|]. intros [post H]. discriminate.
    + destruct (ascii_dec a b) as [->|Hne].
      * rewrite IH.
        split; intros [post H]; exists post; rewrite append_cons in *;
          congruence.
      * split; [discriminate|]. intros [post H].
        rewrite append_cons in H. congruence.
Qed.

(** [Py.contains] is the substring test. *)
Lemma contains_spec (w s : string) :
  Py.contains w s = true <-> exists pre post, s = pre +:+ w +:+ post.
Proof.
  split.
  - induction s as [|c s IH]; cbn [Py.contains]; intros H.
    + rewrite orb_false_r in H. apply prefix_spec in H as [post H].
      now exists EmptyString, post.
    + apply orb_true_iff in H as [H|H].
      * apply prefix_spec in H as [post H]. now exists EmptyString, post.
      * destruct (IH H) as (pre & post & ->).
        now exists (String c pre), post.
  - intros (pre & post & ->). induction pre as [|c pre IH].
    + change (EmptyString +:+ w +:+ post) with (w +:+ post).
      assert (H : String.prefix w (w +:+ post) = true)
        by (apply prefix_spec; eauto).
      destruct (w +:+ post); cbn [Py.contains]; now rewrite H.
    + rewrite append_cons. cbn [Py.contains]. rewrite IH.
      apply orb_true_r.
Qed.

(** C7: the chat fallback answers with the response of the first category,
    in the fixed order, that has a keyword in the lowercased message; the
    message about sleep gets the sleep response, and a message with no
    keyword gets the generic response. *)
Theorem get_fallback_chat_response_first_match :
  (forall message,
     get_fallback_chat_response message =
     first_match categories (Py.lower message)) /\
  map fst categories =
    [["sleep"; "tired"; "insomnia"]; ["exercise"; "workout"; "fitness"];
     ["diet"; "nutrition"; "food"; "eating"];
     ["stress"; "anxiety"; "mental"]; ["water"; "hydration"; "drink"]] /\
  get_fallback_chat_response "I can't sleep at night" = response_sleep /\
  (forall message,
     Forall (fun keyword => Py.contains keyword (Py.lower message) = false)
            (concat (map fst categories)) ->
     get_fallback_chat_response message = response_generic).
Proof.
  split; [reflexivity|]. split; [reflexivity|].
  split; [vm_compute; reflexivity|].
  intros message H. unfold get_fallback_chat_response, Py.any_in.
  cbn [categories map fst concat app] in H.
  repeat match goal with
  | H : Forall _ (_ :: _) |- _ =>
    apply Forall_cons in H as [? H]
  end.
  cbn [existsb].
  repeat match goal with
  | H : Py.contains _ _ = false |- _ => rewrite H; clear H
  end.
  reflexivity.
Qed.

Example get_fallback_chat_response_lowercases :
  get_fallback_chat_response "I am always TIRED" = response_sleep.
Proof. vm_compute; reflexivity. Qed.

Example get_fallback_chat_response_category_order :
  get_fallback_chat_response "Does exercise help me sleep?" = response_sleep /\
  get_fallback_chat_response "What should I drink after a workout?"
    = response_exercise /\
  get_fallback_chat_response "Hello there" = response_generic.
Proof. repeat split; vm_compute; reflexivity. Qed.

(** ** The AI gateway *)

Lemma tips_value_inj (l1 l2 : list string) :
  tips_value l1 = tips_value l2 -> l1 = l2.
Proof.
  unfold tips_value. intros H. injection H as H. revert l2 H.
  induction l1 as [|a l1 IH]; intros [|b l2] H; try discriminate;
    [reflexivity|].
  rewrite !fmap_cons in H. injection H as -> H. f_equal. now apply IH.
Qed.

Section GatewayProperties.

Variable str_float : Q -> string.
Variable json_loads : string -> Py.result json.



End GatewayProperties.

(** A call that raises, and a content that is not JSON, both end in the
    rule-based list, after one request. *)
Example get_health_tips_transport_error :
  run (get_health_tips plain_float no_json (Some failing_client)
                       None None [] None) [] =
  (Py.Ok (tips_value (generic_tips ++ [tip_diet; tip_stress])),
   [tips_request EmptyString]).
Proof. reflexivity. Qed.

Example get_health_tips_non_json :
  run (get_health_tips plain_float no_json
         (Some (fun _ => Py.Ok {| choices := [Some "not json"] |}))
         None None [] None) [] =
  (Py.Ok (tips_value (generic_tips ++ [tip_diet; tip_stress])),
   [tips_request EmptyString]).
Proof. reflexivity. Qed.


(** ** The log store *)

Lemma ascii_compare_lt_trans (a b c : ascii) :
  Ascii.compare a b = Lt -> Ascii.compare b c = Lt -> Ascii.compare a c = Lt.
Proof.
  unfold Ascii.compare. rewrite !N.compare_lt_iff. apply N.lt_trans.
Qed.

Lemma ascii_compare_refl (a : ascii) : Ascii.compare a a = Eq.
Proof. apply N.compare_refl. Qed.

Lemma string_compare_refl (s : string) : String.compare s s = Eq.
Proof.
  induction s as [|a s IH]; cbn [String.compare]; [reflexivity|].
  now rewrite ascii_compare_refl.
Qed.

Lemma string_compare_lt_trans (s1 s2 s3 : string) :
  String.compare s1 s2 = Lt -> String.compare s2 s3 = Lt ->
  String.compare s1 s3 = Lt.
Proof.
  revert s2 s3. induction s1 as [|a s1 IH]; intros [|b s2] [|c s3];
    cbn [String.compare]; try congruence.
  destruct (Ascii.compare a b) eqn:Hab; try discriminate;
    destruct (Ascii.compare b c) eqn:Hbc; try discriminate; intros H1 H2.
  - apply Ascii.compare_eq_iff in Hab, Hbc. subst.
    now rewrite ascii_compare_refl, (IH _ _ H1 H2).
  - apply Ascii.compare_eq_iff in Hab. subst. now rewrite Hbc.
  - apply Ascii.compare_eq_iff in Hbc. subst. now rewrite Hab.
  - now rewrite (ascii_compare_lt_trans _ _ _ Hab Hbc).
Qed.

Lemma string_leb_trans (s1 s2 s3 : string) :
  String.leb s1 s2 = true -> String.leb s2 s3 = true ->
  String.leb s1 s3 = true.
Proof.
  unfold String.leb.
  destruct (String.compare s1 s2) eqn:H12; try discriminate;
    destruct (String.compare s2 s3) eqn:H23; try discriminate; intros _ _.
  - apply String.compare_eq_iff in H12. subst. now rewrite H23.
  - apply String.compare_eq_iff in H12. subst. now rewrite H23.
  - apply String.compare_eq_iff in H23. subst. now rewrite H12.
  - now rewrite (string_compare_lt_trans _ _ _ H12 H23).
Qed.

Lemma string_ltb_leb (s1 s2 : string) :
  String.ltb s1 s2 = true -> String.leb s1 s2 = true.
Proof. unfold String.ltb, String.leb. now destruct (String.compare s1 s2). Qed.

Lemma string_not_ltb_leb (s1 s2 : string) :
  String.ltb s1 s2 = false -> String.leb s2 s1 = true.
Proof.
  unfold String.ltb, String.leb. rewrite (String.compare_antisym s2 s1).
  now destruct (String.compare s1 s2).
Qed.

#[global] Instance recent_first_trans : Transitive recent_first.
Proof. intros a b c Hab Hbc. exact (string_leb_trans _ _ _ Hbc Hab). Qed.

Lemma insert_desc_perm (x : Log) (l : list Log) : insert_desc x l ≡ₚ x :: l.
Proof.
  induction l as [|y l IH]; cbn [insert_desc]; [reflexivity|].
  destruct (String.ltb (date x) (date y)); [|reflexivity].
  rewrite IH. apply Permutation_swap.
Qed.


Lemma sorted_by_date_desc_perm (l : list Log) : sorted_by_date_desc l ≡ₚ l.
Proof.
  induction l as [|x l IH]; cbn [sorted_by_date_desc]; [reflexivity|].
  now rewrite insert_desc_perm, IH.
Qed.


(** The sort is stable: inserting in front of an entry of the same date. *)
Lemma insert_desc_same_date (x y : Log) (l : list Log) :
  date x = date y -> insert_desc x (y :: l) = x :: y :: l.
Proof.
  intros E. cbn [insert_desc]. unfold String.ltb.
  now rewrite E, string_compare_refl.
Qed.




Example get_by_user_id_stable_order :
  map log_id
    (get_by_user_id
       (snd (create "t3" 1 "2024-05-04" 6 0 5 "" ""
          (snd (create "t2" 1 "2024-05-09" 7 45 9 "" ""
             (snd (create "t1" 1 "2024-05-04" 8 30 8 "" ""
                initial_storage))))))
       1 None)
  = [2%Z; 1%Z; 3%Z].
Proof. vm_compute; reflexivity. Qed.

(** * Further properties of the generators *)

Import Rules.

Lemma truthy_list_take {A} (k : nat) (l : list A) :
  (0 < k)%nat -> Py.truthy_list (take k l) = Py.truthy_list l.
Proof. intros Hk. destruct l, k; try reflexivity; lia. Qed.

Lemma min_len_take {A} (k : nat) (l : list A) :
  Py.min_len (take k l) k = Py.min_len l k.
Proof. unfold Py.min_len. rewrite length_take. do 2 f_equal. lia. Qed.

(** X1: the tip generator reads neither the user nor the profile, and of
    the logs only the seven most recent. *)
Theorem get_fallback_health_tips_window
    user profile user' profile' (recent_logs : list Log) weather_data :
  get_fallback_health_tips user profile recent_logs weather_data =
  get_fallback_health_tips user' profile' (take 7 recent_logs) weather_data.
Proof.
  unfold get_fallback_health_tips, rule_tips, Py.slice_to.
  now rewrite !take_idemp, !min_len_take, truthy_list_take by lia.
Qed.

(** X2: the alert generator reads neither the user nor the profile, and of
    the logs only the three most recent. *)
Theorem get_health_alerts_window
    user profile user' profile' (recent_logs : list Log) weather_data :
  get_health_alerts user profile recent_logs weather_data =
  get_health_alerts user' profile' (take 3 recent_logs) weather_data.
Proof.
  unfold get_health_alerts, Py.slice_to.
  now rewrite !take_idemp, !min_len_take, truthy_list_take by lia.
Qed.






Lemma lower_app (s t : string) :
  Py.lower (s +:+ t) = Py.lower s +:+ Py.lower t.
Proof.
  induction s as [|c s IH]; [reflexivity|].
  rewrite append_cons. cbn [Py.lower]. now rewrite append_cons, IH.
Qed.

Lemma any_in_true (words : list string) (w s : string) :
  w ∈ words -> Py.contains w s = true -> Py.any_in words s = true.
Proof.
  intros Hw Hc. unfold Py.any_in. apply existsb_exists.
  exists w. split; [now apply list_elem_of_In|assumption].
Qed.

(** X6: a message in which a sleep keyword occurs anywhere, inside a word
    and in any letter case, gets the sleep response, whatever else the
    message says. *)
Theorem get_fallback_chat_response_sleep_anywhere (pre word post : string) :
  Py.lower word ∈ ["sleep"; "tired"; "insomnia"] ->
  get_fallback_chat_response (pre +:+ word +:+ post) = response_sleep.
Proof.
  intros Hw. unfold get_fallback_chat_response.
  rewrite (any_in_true _ (Py.lower word)); [reflexivity|assumption|].
  rewrite !lower_app. apply contains_spec. eauto.
Qed.

Lemma get_fallback_chat_response_sleep_anywhere_witness :
  get_fallback_chat_response
    ("After my workout I feel " +:+ "TIRED" +:+ "ness. What should I eat?")
  = response_sleep.
Proof.
  apply get_fallback_chat_response_sleep_anywhere. compute_done.
Defined.

(** * Further properties of the log store *)

Import LogStore.

Lemma create_spec now uid d sleep exercise water meals_ notes_ st :
  create now uid d sleep exercise water meals_ notes_ st =
  (log_id_counter st,
   {| lifestyle_logs_db :=
        <[uid := stored_logs st uid ++
                 [new_entry st now uid d sleep exercise water meals_ notes_]]>
          (lifestyle_logs_db st);
      log_id_counter := (log_id_counter st + 1)%Z |}).
Proof.
  unfold create, get_next_log_id, stored_logs, new_entry.
  cbn [lifestyle_logs_db log_id_counter].
  destruct (lifestyle_logs_db st !! uid) as [logs|] eqn:E;
    rewrite ?E; cbn [from_option id]; [reflexivity|].
  rewrite lookup_insert_eq. cbn [from_option id].
  now rewrite insert_insert_eq.
Qed.

Lemma stored_logs_create now uid d sleep exercise water meals_ notes_ st uid' :
  stored_logs (snd (create now uid d sleep exercise water meals_ notes_ st))
              uid' =
  if decide (uid = uid')
  then stored_logs st uid ++
       [new_entry st now uid d sleep exercise water meals_ notes_]
  else stored_logs st uid'.
Proof.
  rewrite create_spec. unfold stored_logs at 1.
  cbn [snd lifestyle_logs_db]. rewrite lookup_insert.
  now destruct (decide (uid = uid')).
Qed.

Lemma get_by_user_id_unlimited st uid :
  get_by_user_id st uid None = sorted_by_date_desc (stored_logs st uid).
Proof.
  unfold get_by_user_id, stored_logs.
  now destruct (lifestyle_logs_db st !! uid).
Qed.

(** X7: [create] returns the id it stores, advances the counter by one,
    and afterwards the read without a limit returns the user's earlier
    entries together with the new one, which carries the given fields. *)
Theorem create_then_get_by_user_id
    now uid d sleep exercise water meals_ notes_ st :
  let entry := new_entry st now uid d sleep exercise water meals_ notes_ in
  let result := create now uid d sleep exercise water meals_ notes_ st in
  fst result = log_id entry /\
  log_id_counter (snd result) = (log_id_counter st + 1)%Z /\
  get_by_user_id (snd result) uid None ≡ₚ
    entry :: get_by_user_id st uid None /\
  entry ∈ get_by_user_id (snd result) uid None.
Proof.
  intros entry result. subst entry result.
  assert (Hperm :
    get_by_user_id
      (snd (create now uid d sleep exercise water meals_ notes_ st)) uid None
    ≡ₚ new_entry st now uid d sleep exercise water meals_ notes_
       :: get_by_user_id st uid None).
  { rewrite !get_by_user_id_unlimited, !sorted_by_date_desc_perm.
    rewrite stored_logs_create. destruct (decide (uid = uid)); [|done].
    now rewrite Permutation_app_comm. }
  split; [now rewrite create_spec|]. split; [now rewrite create_spec|].
  split; [exact Hperm|]. rewrite Hperm. apply list_elem_of_here.
Qed.

(** X8: [create] for one user changes no read of another user. *)
Theorem create_other_user
    now uid d sleep exercise water meals_ notes_ st uid' limit :
  uid <> uid' ->
  get_by_user_id (snd (create now uid d sleep exercise water meals_ notes_ st))
                 uid' limit =
  get_by_user_id st uid' limit.
Proof.
  intros Hne. rewrite create_spec. unfold get_by_user_id.
  cbn [snd lifestyle_logs_db]. now rewrite lookup_insert_ne.
Qed.

Lemma create_other_user_witness :
  get_by_user_id (snd (create "2024-05-05T09:00:00" 2 "2024-05-05" 7 20 6
                              "beans" "" one_log_storage)) 1 (Some 3%Z) =
  get_by_user_id one_log_storage 1 (Some 3%Z).
Proof. apply create_other_user. discriminate. Defined.

Lemma well_formed_stored st uid i a :
  well_formed st -> stored_logs st uid !! i = Some a ->
  user_id a = uid /\ (1 <= log_id a < log_id_counter st)%Z.
Proof.
  intros (_ & Hown & _) Ha. unfold stored_logs in Ha.
  destruct (lifestyle_logs_db st !! uid) as [logs|] eqn:E;
    cbn [from_option id] in Ha; [|now rewrite lookup_nil in Ha].
  destruct (Hown _ _ E) as [_ Hall].
  rewrite Forall_lookup in Hall. exact (Hall _ _ Ha).
Qed.

Lemma well_formed_initial : well_formed initial_storage.
Proof.
  split; [cbn; lia|]. split.
  - intros uid logs H. cbn in H. now rewrite lookup_empty in H.
  - intros uid1 uid2 i j a b Ha. unfold stored_logs in Ha. cbn in Ha.
    rewrite lookup_empty in Ha. cbn in Ha. now rewrite lookup_nil in Ha.
Qed.

Lemma well_formed_create now uid d sleep exercise water meals_ notes_ st :
  well_formed st ->
  well_formed (snd (create now uid d sleep exercise water meals_ notes_ st)).
Proof.
  intros Hwf. pose proof Hwf as (Hc & Hown & Hdistinct).
  set (e := new_entry st now uid d sleep exercise water meals_ notes_).
  assert (Hstored : forall u i a,
    stored_logs (snd (create now uid d sleep exercise water meals_ notes_ st))
                u !! i = Some a ->
    (stored_logs st u !! i = Some a) \/
    (u = uid /\ i = length (stored_logs st uid) /\ a = e)).
  { intros u i a. rewrite stored_logs_create.
    destruct (decide (uid = u)) as [<-|Hne]; [|now left].
    rewrite lookup_snoc_Some. intros [[_ H]|[-> <-]]; [now left|now right]. }
  split; [rewrite create_spec; cbn; lia|]. split.
  - intros u logs Hu. split.
    + rewrite create_spec in Hu. cbn [snd lifestyle_logs_db] in Hu.
      rewrite lookup_insert in Hu. destruct (decide (uid = u)).
      * injection Hu as <-. now destruct (stored_logs st uid).
      * now destruct (Hown _ _ Hu).
    + apply Forall_lookup. intros i a Ha.
      assert (Ha' : stored_logs
                (snd (create now uid d sleep exercise water meals_ notes_ st))
                u !! i = Some a) by (unfold stored_logs; now rewrite Hu).
      rewrite create_spec. cbn [snd log_id_counter].
      destruct (Hstored _ _ _ Ha') as [Hold|(-> & _ & ->)].
      * destruct (well_formed_stored _ _ _ _ Hwf Hold). split; [done|lia].
      * cbn. split; [done|lia].
  - intros uid1 uid2 i j a b Ha Hb Hid.
    destruct (Hstored _ _ _ Ha) as [Ha'|(-> & -> & ->)];
      destruct (Hstored _ _ _ Hb) as [Hb'|(-> & -> & ->)].
    + eauto.
    + destruct (well_formed_stored _ _ _ _ Hwf Ha') as [_ H].
      cbn in Hid. lia.
    + destruct (well_formed_stored _ _ _ _ Hwf Hb') as [_ H].
      cbn in Hid. lia.
    + done.
Qed.

(** X9: in every store built by [create] from the initial one, each log is
    filed under its own user, no user has an empty list, every id was
    issued by the counter, and no two logs share an id. *)
Theorem reachable_well_formed (st : Storage) :
  reachable st -> well_formed st.
Proof.
  induction 1 as [|st now uid d sleep exercise water meals_ notes_ _ IH].
  - apply well_formed_initial.
  - now apply well_formed_create.
Qed.

Lemma reachable_well_formed_witness : well_formed one_log_storage.
Proof.
  apply reachable_well_formed.
  exact (reachable_create initial_storage "2024-05-04T08:00:00" 1
           "2024-05-04" 8 30 8 "rice" "" reachable_initial).
Defined.

Lemma insert_desc_filter_date (d : string) (x : Log) (l : list Log) :
  filter (fun log => date log = d) (insert_desc x l) =
  filter (fun log => date log = d) (x :: l).
Proof.
  induction l as [|y l IH]; cbn [insert_desc]; [reflexivity|].
  destruct (String.ltb (date x) (date y)) eqn:Hlt; [|reflexivity].
  rewrite filter_cons, IH, !filter_cons.
  destruct (decide (date y = d)) as [Hy|Hy];
    destruct (decide (date x = d)) as [Hx|Hx]; try reflexivity.
  unfold String.ltb in Hlt.
  rewrite Hx, Hy, string_compare_refl in Hlt. discriminate.
Qed.

(** X10: the read is stable: the logs of one date come out in the order in
    which they were created. *)
Theorem get_by_user_id_stable (st : Storage) (uid : Z) (d : string) :
  filter (fun log => date log = d) (get_by_user_id st uid None) =
  filter (fun log => date log = d) (stored_logs st uid).
Proof.
  rewrite get_by_user_id_unlimited.
  induction (stored_logs st uid) as [|x l IH]; [reflexivity|].
  cbn [sorted_by_date_desc].
  now rewrite insert_desc_filter_date, !filter_cons, IH.
Qed.

(** * Properties of users, profiles and payments *)

Import Accounts.

Lemma dict_get_set {V} (k k' : Z) (v : V) (d : PyDict.dict V) :
  PyDict.get k' (PyDict.set k v d) =
  if decide (k = k') then Some v else PyDict.get k' d.
Proof.
  induction d as [|[k0 v0] d IH]; cbn [PyDict.set PyDict.get].
  - destruct (decide (k = k')); reflexivity.
  - destruct (decide (k0 = k)) as [->|Hne]; cbn [PyDict.get].
    + destruct (decide (k = k')); reflexivity.
    + rewrite IH. destruct (decide (k0 = k')) as [->|]; [|reflexivity].
      destruct (decide (k = k')); [congruence|reflexivity].
Qed.

Lemma dict_set_fresh {V} (k : Z) (v : V) (d : PyDict.dict V) :
  PyDict.get k d = None -> PyDict.set k v d = d ++ [(k, v)].
Proof.
  induction d as [|[k0 v0] d IH]; cbn [PyDict.set PyDict.get app];
    [reflexivity|].
  destruct (decide (k0 = k)); [discriminate|].
  intros H. now rewrite IH.
Qed.

Lemma dict_keys_set {V} (k : Z) (v v0 : V) (d : PyDict.dict V) :
  PyDict.get k d = Some v0 ->
  PyDict.keys (PyDict.set k v d) = PyDict.keys d.
Proof.
  unfold PyDict.keys.
  induction d as [|[k1 v1] d IH]; cbn [PyDict.set PyDict.get map fst];
    [discriminate|].
  destruct (decide (k1 = k)) as [->|Hne]; cbn [map fst]; [reflexivity|].
  intros H. now rewrite IH.
Qed.

Lemma user_create_spec now name_ email_ password_hash_ db :
  user_create now name_ email_ password_hash_ db =
  (user_id_counter db,
   {| users_db := PyDict.set (user_id_counter db)
                    (new_user db now name_ email_ password_hash_)
                    (users_db db);
      profiles_db := profiles_db db;
      payments_db := payments_db db;
      user_id_counter := (user_id_counter db + 1)%Z;
      payment_id_counter := payment_id_counter db |}).
Proof. reflexivity. Qed.

(** X11: [User.create] returns the id it stores and advances the counter;
    afterwards [get_by_id] of that id gives the new user, who is not
    premium, every other id reads as before, and profiles and payments are
    untouched. *)
Theorem user_create_then_get_by_id now name_ email_ password_hash_ db :
  let result := user_create now name_ email_ password_hash_ db in
  fst result = user_id_counter db /\
  user_id_counter (snd result) = (user_id_counter db + 1)%Z /\
  (forall uid,
     user_get_by_id uid (snd result) =
     if decide (user_id_counter db = uid)
     then Some (new_user db now name_ email_ password_hash_)
     else user_get_by_id uid db) /\
  is_premium (new_user db now name_ email_ password_hash_) = false /\
  profiles_db (snd result) = profiles_db db /\
  payments_db (snd result) = payments_db db.
Proof.
  intros result. subst result. rewrite user_create_spec.
  cbn [fst snd user_id_counter profiles_db payments_db].
  repeat split. intros uid. unfold user_get_by_id. cbn [users_db].
  apply dict_get_set.
Qed.

Lemma find_app_none {A} (test : A -> bool) (l1 l2 : list A) :
  find test l1 = None -> find test (l1 ++ l2) = find test l2.
Proof.
  induction l1 as [|x l1 IH]; cbn [find app]; [reflexivity|].
  destruct (test x); [discriminate|exact IH].
Qed.

Lemma find_app_some {A} (test : A -> bool) (l1 l2 : list A) (x : A) :
  find test l1 = Some x -> find test (l1 ++ l2) = Some x.
Proof.
  induction l1 as [|y l1 IH]; cbn [find app]; [discriminate|].
  destruct (test y); [trivial|exact IH].
Qed.

Lemma user_get_by_email_after_create
    now name_ email_ password_hash_ db (email' : string) :
  user_get_by_id (user_id_counter db) db = None ->
  user_get_by_email email'
    (snd (user_create now name_ email_ password_hash_ db)) =
  match user_get_by_email email' db with
  | Some user => Some user
  | None => if decide (email_ = email')
            then Some (new_user db now name_ email_ password_hash_)
            else None
  end.
Proof.
  intros Hfresh. rewrite user_create_spec.
  unfold user_get_by_email, PyDict.values. cbn [snd users_db].
  rewrite dict_set_fresh by exact Hfresh. rewrite map_app.
  destruct (find _ (map snd (users_db db))) as [user|] eqn:E.
  - now apply find_app_some.
  - rewrite find_app_none by exact E. cbn [map snd find new_user email].
    destruct (decide (email_ = email')) as [->|Hne].
    + now rewrite bool_decide_eq_true_2.
    + now rewrite bool_decide_eq_false_2.
Qed.

(** X12: when the counter's id is not taken, [get_by_email] after
    [User.create] still returns the user it returned before, if any: the
    first user created with an email keeps it; the new user is returned
    only for an email nobody had. *)
Theorem user_create_then_get_by_email
    now name_ email_ password_hash_ db (email' : string) :
  user_get_by_id (user_id_counter db) db = None ->
  user_get_by_email email'
    (snd (user_create now name_ email_ password_hash_ db)) =
  match user_get_by_email email' db with
  | Some user => Some user
  | None => if decide (email_ = email')
            then Some (new_user db now name_ email_ password_hash_)
            else None
  end.
Proof. apply user_get_by_email_after_create. Qed.

Lemma user_create_then_get_by_email_witness :
  user_get_by_email "ada@example.org"
    (snd (user_create "2024-05-04T08:00:00" "Ada" "ada@example.org" "hash"
                      initial_db)) =
  Some (new_user initial_db "2024-05-04T08:00:00" "Ada" "ada@example.org"
                 "hash").
Proof.
  exact (user_create_then_get_by_email "2024-05-04T08:00:00" "Ada"
           "ada@example.org" "hash" initial_db "ada@example.org" eq_refl).
Defined.

Lemma user_core_find_set (email_ : string) (flag : bool)
    (k : Z) (u : User) (d : PyDict.dict User) :
  PyDict.get k d = Some u ->
  user_core <$> find (fun user => bool_decide (email user = email_))
                     (PyDict.values (PyDict.set k (set_premium flag u) d)) =
  user_core <$> find (fun user => bool_decide (email user = email_))
                     (PyDict.values d).
Proof.
  unfold PyDict.values.
  induction d as [|[k0 v0] d IH];
    cbn [PyDict.get PyDict.set map snd find]; [discriminate|].
  destruct (decide (k0 = k)) as [->|Hne]; cbn [map snd find].
  - intros [= ->]. cbn [set_premium email].
    destruct (bool_decide (email u = email_)); reflexivity.
  - intros H. destruct (bool_decide (email v0 = email_)); [reflexivity|].
    now apply IH.
Qed.

(** X13: [update_premium_status] sets the flag of the user with this id
    and nothing else: every other user reads as before, no user is added,
    removed or reordered, the user an email leads to keeps id, name, email,
    password hash and creation time, and an unknown id changes nothing. *)
Theorem user_update_premium_status_spec (uid : Z) (flag : bool) (db : Db) :
  let db' := user_update_premium_status uid flag db in
  (forall uid',
     user_get_by_id uid' db' =
     (fun user => if decide (uid = uid') then set_premium flag user
                  else user) <$> user_get_by_id uid' db) /\
  (forall email_,
     user_core <$> user_get_by_email email_ db' =
     user_core <$> user_get_by_email email_ db) /\
  PyDict.keys (users_db db') = PyDict.keys (users_db db) /\
  (user_get_by_id uid db = None -> db' = db) /\
  profiles_db db' = profiles_db db /\ payments_db db' = payments_db db.
Proof.
  intros db'. subst db'. unfold user_update_premium_status, user_get_by_id,
    user_get_by_email.
  destruct (PyDict.get uid (users_db db)) as [u|] eqn:E;
    cbn [with_users users_db profiles_db payments_db].
  - split; [|split; [|split; [|split; [discriminate|split; reflexivity]]]].
    + intros uid'. rewrite dict_get_set.
      destruct (decide (uid = uid')) as [<-|Hne].
      * now rewrite E.
      * now destruct (PyDict.get uid' (users_db db)).
    + intros email_. now apply user_core_find_set.
    + now apply dict_keys_set with u.
  - repeat split. intros uid'.
    destruct (decide (uid = uid')) as [<-|Hne].
    + now rewrite E.
    + now destruct (PyDict.get uid' (users_db db)).
Qed.

(** X14: [Profile.create_or_update] replaces the user's profile as a
    whole: the read returns exactly the fields just given, an earlier
    update of the same user leaves no trace, and other users' profiles,
    the users and the payments are untouched. *)
Theorem profile_create_or_update_replaces
    now uid age_ gender_ location_ frequency_ sleep_ diet_
    now0 age0 gender0 location0 frequency0 sleep0 diet0 db :
  let db' := profile_create_or_update now uid age_ gender_ location_
               frequency_ sleep_ diet_ db in
  (forall uid',
     profile_get_by_user_id uid' db' =
     if decide (uid = uid')
     then Some {| profile_user_id := uid; age := age_; gender := gender_;
                  location := location_; exercise_frequency := frequency_;
                  target_sleep_hours := sleep_; diet_type := diet_;
                  updated_at := now |}
     else profile_get_by_user_id uid' db) /\
  profile_create_or_update now uid age_ gender_ location_ frequency_ sleep_
    diet_
    (profile_create_or_update now0 uid age0 gender0 location0 frequency0
       sleep0 diet0 db) = db' /\
  users_db db' = users_db db /\ payments_db db' = payments_db db.
Proof.
  intros db'. subst db'. unfold profile_create_or_update,
    profile_get_by_user_id, with_profiles.
  cbn [profiles_db users_db payments_db user_id_counter payment_id_counter].
  split; [|split; [|split; reflexivity]].
  - intros uid'. apply lookup_insert.
  - now rewrite insert_insert_eq.
Qed.

(** ** Payments *)

Lemma dict_set_set {V} (k : Z) (v w : V) (d : PyDict.dict V) :
  PyDict.set k w (PyDict.set k v d) = PyDict.set k w d.
Proof.
  induction d as [|[k0 v0] d IH]; cbn [PyDict.set].
  - now destruct (decide (k = k)).
  - destruct (decide (k0 = k)) as [->|Hne]; cbn [PyDict.set].
    + now destruct (decide (k = k)).
    + destruct (decide (k0 = k)); [done|]. now rewrite IH.
Qed.

Lemma payment_create_spec now uid reference_ amount_ currency_ db :
  payment_create now uid reference_ amount_ currency_ db =
  (payment_id_counter db,
   {| users_db := users_db db;
      profiles_db := profiles_db db;
      payments_db :=
        PyDict.set uid
          (default [] (PyDict.get uid (payments_db db)) ++
           [new_payment db now uid reference_ amount_ currency_])
          (payments_db db);
      user_id_counter := user_id_counter db;
      payment_id_counter := (payment_id_counter db + 1)%Z |}).
Proof.
  unfold payment_create, get_next_payment_id, with_payments, new_payment.
  cbn [payments_db users_db profiles_db user_id_counter payment_id_counter].
  destruct (PyDict.get uid (payments_db db)) as [ps|] eqn:E;
    rewrite ?E; cbn [from_option id]; [reflexivity|].
  rewrite dict_get_set. destruct (decide (uid = uid)); [|done].
  cbn [from_option id]. now rewrite dict_set_set.
Qed.

Lemma find_in_dict_flat reference_ (d : PyDict.dict (list Payment)) :
  find_in_dict reference_ d =
  find (fun p => bool_decide (reference p = reference_))
       (concat (PyDict.values d)).
Proof.
  unfold PyDict.values.
  induction d as [|[k ps] d IH]; cbn [find_in_dict map snd concat];
    [reflexivity|].
  destruct (find _ ps) as [p|] eqn:E.
  - symmetry. now apply find_app_some.
  - now rewrite find_app_none.
Qed.

Lemma find_in_dict_set_fresh reference_ uid (e : Payment)
    (d : PyDict.dict (list Payment)) :
  reference e = reference_ ->
  find_in_dict reference_ d = None ->
  find_in_dict reference_
    (PyDict.set uid (default [] (PyDict.get uid d) ++ [e]) d) = Some e.
Proof.
  intros He.
  assert (Hlast : forall ps,
    find (fun p => bool_decide (reference p = reference_)) ps = None ->
    find (fun p => bool_decide (reference p = reference_)) (ps ++ [e])
      = Some e).
  { intros ps H. rewrite find_app_none by exact H. cbn [find].
    now rewrite bool_decide_eq_true_2. }
  induction d as [|[k ps] d IH];
    cbn [PyDict.get PyDict.set find_in_dict from_option id].
  - intros _. now rewrite (Hlast []).
  - destruct (find _ ps) as [p|] eqn:E; [discriminate|]. intros Hd.
    destruct (decide (k = uid)) as [->|Hne];
      cbn [find_in_dict from_option id].
    + now rewrite Hlast.
    + rewrite E. now apply IH.
Qed.

Lemma find_in_dict_set_other reference_ uid (e : Payment)
    (d : PyDict.dict (list Payment)) :
  reference e <> reference_ ->
  find_in_dict reference_
    (PyDict.set uid (default [] (PyDict.get uid d) ++ [e]) d) =
  find_in_dict reference_ d.
Proof.
  intros He.
  assert (Hlast : forall ps,
    find (fun p => bool_decide (reference p = reference_)) (ps ++ [e]) =
    find (fun p => bool_decide (reference p = reference_)) ps).
  { intros ps. destruct (find _ ps) as [p|] eqn:E.
    - now apply find_app_some.
    - rewrite find_app_none by exact E. cbn [find].
      now rewrite bool_decide_eq_false_2. }
  induction d as [|[k ps] d IH];
    cbn [PyDict.get PyDict.set find_in_dict from_option id].
  - now rewrite (Hlast []).
  - destruct (decide (k = uid)) as [->|Hne];
      cbn [find_in_dict from_option id].
    + now rewrite Hlast.
    + now rewrite IH.
Qed.

(** X15: after [Payment.create] with a reference that no stored payment
    has, [get_by_reference] of it returns the new payment: pending, with
    an empty gateway response, the id that [create] returned and the
    given user, amount and currency. The counter advances by one, every
    other reference reads as before, and the users are untouched. *)
Theorem payment_create_then_get_by_reference
    now uid reference_ amount_ currency_ db :
  payment_get_by_reference reference_ db = None ->
  let result := payment_create now uid reference_ amount_ currency_ db in
  payment_get_by_reference reference_ (snd result) =
    Some (new_payment db now uid reference_ amount_ currency_) /\
  fst result = payment_id (new_payment db now uid reference_ amount_
                                       currency_) /\
  payment_id_counter (snd result) = (payment_id_counter db + 1)%Z /\
  (forall other, other <> reference_ ->
     payment_get_by_reference other (snd result) =
     payment_get_by_reference other db) /\
  users_db (snd result) = users_db db.
Proof.
  intros Hfresh result. subst result. rewrite payment_create_spec.
  unfold payment_get_by_reference in *.
  cbn [fst snd payments_db payment_id_counter users_db].
  split; [now apply find_in_dict_set_fresh|].
  split; [reflexivity|]. split; [reflexivity|]. split; [|reflexivity].
  intros other Hne. apply find_in_dict_set_other. cbn. congruence.
Qed.

Lemma payment_create_then_get_by_reference_witness :
  payment_get_by_reference "HC_1_ab12"
    (snd (payment_create "2024-05-04T08:00:00" 1 "HC_1_ab12" 50 "NGN"
                         initial_db)) =
  Some (new_payment initial_db "2024-05-04T08:00:00" 1 "HC_1_ab12" 50 "NGN").
Proof.
  exact (proj1 (payment_create_then_get_by_reference "2024-05-04T08:00:00" 1
                  "HC_1_ab12" 50 "NGN" initial_db eq_refl)).
Defined.

Lemma update_first_app_none {A} (test : A -> bool) (f : A -> A)
    (l1 l2 : list A) :
  find test l1 = None ->
  update_first test f (l1 ++ l2) = l1 ++ update_first test f l2.
Proof.
  induction l1 as [|x l1 IH]; cbn [find app update_first]; [reflexivity|].
  destruct (test x); [discriminate|]. intros H. now rewrite IH.
Qed.

Lemma update_first_app_some {A} (test : A -> bool) (f : A -> A)
    (l1 l2 : list A) (x : A) :
  find test l1 = Some x ->
  update_first test f (l1 ++ l2) = update_first test f l1 ++ l2.
Proof.
  induction l1 as [|y l1 IH]; cbn [find app update_first]; [discriminate|].
  destruct (test y); [reflexivity|]. intros H. cbn [app]. now rewrite IH.
Qed.

Lemma update_first_none {A} (test : A -> bool) (f : A -> A) (l : list A) :
  find test l = None -> update_first test f l = l.
Proof.
  induction l as [|x l IH]; cbn [find update_first]; [reflexivity|].
  destruct (test x); [discriminate|]. intros H. now rewrite IH.
Qed.

Lemma find_update_first {A} (test : A -> bool) (f : A -> A) (l : list A) :
  (forall x, test x = true -> test (f x) = true) ->
  find test (update_first test f l) = f <$> find test l.
Proof.
  intros Hf. induction l as [|x l IH]; cbn [find update_first];
    [reflexivity|].
  destruct (test x) eqn:E; cbn [find].
  - now rewrite Hf.
  - now rewrite E.
Qed.

Lemma update_in_list_spec reference_ status_ response_ (ps : list Payment) :
  update_in_list reference_ status_ response_ ps =
  (fun p => (updated status_ response_ p,
             update_first (fun p => bool_decide (reference p = reference_))
                          (updated status_ response_) ps))
  <$> find (fun p => bool_decide (reference p = reference_)) ps.
Proof.
  induction ps as [|p ps IH]; cbn [update_in_list find update_first];
    [reflexivity|].
  destruct (bool_decide (reference p = reference_)); [reflexivity|].
  rewrite IH. now destruct (find _ ps).
Qed.

Lemma update_in_dict_spec reference_ status_ response_
    (d : PyDict.dict (list Payment)) :
  match update_in_dict reference_ status_ response_ d with
  | Some (p', d') =>
    Some p' = updated status_ response_ <$> find_in_dict reference_ d /\
    PyDict.keys d' = PyDict.keys d /\
    map length (PyDict.values d') = map length (PyDict.values d) /\
    concat (PyDict.values d') =
      update_first (fun p => bool_decide (reference p = reference_))
                   (updated status_ response_) (concat (PyDict.values d))
  | None => find_in_dict reference_ d = None
  end.
Proof.
  unfold PyDict.keys, PyDict.values.
  induction d as [|[k ps] d IH];
    cbn [update_in_dict find_in_dict map fst snd concat]; [reflexivity|].
  rewrite update_in_list_spec.
  destruct (find _ ps) as [p|] eqn:E; cbn [fmap option_fmap option_map].
  - repeat split. cbn [map fst snd concat length].
    + f_equal. clear E. induction ps as [|q ps IHps];
        cbn [update_first length]; [reflexivity|].
      destruct (bool_decide _); cbn [length]; [reflexivity|]. now rewrite IHps.
    + cbn [map snd concat]. symmetry. now apply update_first_app_some with p.
  - destruct (update_in_dict reference_ status_ response_ d)
      as [[p' d']|]; [|exact IH].
    destruct IH as (H1 & H2 & H3 & H4). cbn [map fst snd concat].
    repeat split; [assumption|now rewrite H2|now rewrite H3|].
    rewrite H4. symmetry. now apply update_first_app_none.
Qed.

Lemma payment_update_status_lookup reference_ status_ response_ db :
  let result := payment_update_status reference_ status_ response_ db in
  fst result =
    updated status_ response_ <$> payment_get_by_reference reference_ db /\
  payment_get_by_reference reference_ (snd result) = fst result /\
  (payment_get_by_reference reference_ db = None -> snd result = db).
Proof.
  intros result. subst result.
  unfold payment_update_status, payment_get_by_reference.
  pose proof (update_in_dict_spec reference_ status_ response_
                (payments_db db)) as H.
  destruct (update_in_dict reference_ status_ response_ (payments_db db))
    as [[p' d']|]; cbn [fst snd with_payments payments_db].
  - destruct H as (H1 & _ & _ & H4).
    split; [exact H1|]. split.
    + rewrite H1, !find_in_dict_flat, H4. apply find_update_first.
      intros x Hx. exact Hx.
    + intros Hnone. rewrite Hnone in H1. discriminate.
  - rewrite H. now repeat split.
Qed.

(** X16: [update_status] finds the payment that [get_by_reference] finds,
    returns it with the new status (and the new gateway response, when one
    is given), and a later [get_by_reference] returns that updated payment;
    when no payment has the reference it returns [None] and changes
    nothing. *)
Theorem payment_update_status_returns reference_ status_ response_ db :
  let result := payment_update_status reference_ status_ response_ db in
  fst result =
    updated status_ response_ <$> payment_get_by_reference reference_ db /\
  payment_get_by_reference reference_ (snd result) = fst result /\
  (payment_get_by_reference reference_ db = None -> snd result = db).
Proof. apply payment_update_status_lookup. Qed.

(** X17: [update_status] writes the status and the gateway response of the
    first payment, in iteration order, that has the reference, and nothing
    else: later payments with the same reference, and the id, user,
    reference, amount, currency and creation time of every payment, stay
    as they are; no payment is added, removed or moved to another user;
    users and profiles are untouched. *)
Theorem payment_update_status_first_only reference_ status_ response_ db :
  let db' := snd (payment_update_status reference_ status_ response_ db) in
  all_payments db' =
    update_first (fun p => bool_decide (reference p = reference_))
                 (updated status_ response_) (all_payments db) /\
  map payment_core (all_payments db') = map payment_core (all_payments db) /\
  PyDict.keys (payments_db db') = PyDict.keys (payments_db db) /\
  map length (PyDict.values (payments_db db')) =
    map length (PyDict.values (payments_db db)) /\
  users_db db' = users_db db /\ profiles_db db' = profiles_db db /\
  payment_id_counter db' = payment_id_counter db.
Proof.
  intros db'. subst db'.
  assert (Hcore : forall l : list Payment,
    map payment_core
        (update_first (fun p => bool_decide (reference p = reference_))
                      (updated status_ response_) l) = map payment_core l).
  { induction l as [|p l IH]; cbn [update_first map]; [reflexivity|].
    destruct (bool_decide _); cbn [map]; [reflexivity|]. now rewrite IH. }
  unfold payment_update_status, all_payments.
  pose proof (update_in_dict_spec reference_ status_ response_
                (payments_db db)) as H.
  destruct (update_in_dict reference_ status_ response_ (payments_db db))
    as [[p' d']|];
    cbn [snd with_payments payments_db users_db profiles_db
         payment_id_counter].
  - destruct H as (_ & H2 & H3 & H4). rewrite H4, Hcore. now repeat split.
  - rewrite find_in_dict_flat in H. rewrite update_first_none by exact H.
    now repeat split.
Qed.

Example payment_update_status_duplicate_reference :
  let db1 := snd (payment_create "t1" 1 "REF" 50 "NGN" initial_db) in
  let db2 := snd (payment_create "t2" 2 "REF" 70 "NGN" db1) in
  let db3 := snd (payment_update_status "REF" "success" None db2) in
  map (fun p => (payment_id p, status p)) (all_payments db3) =
    [(1%Z, "success"); (2%Z, "pending")].
Proof. vm_compute; reflexivity. Qed.

(** * Properties of the weather fetch *)

Import WeatherFetch.

Example get_weather_data_live :
  let s := fst (get_weather_data (Some "k")
                  (answering (sample_payload (365 # 10) (41 # 1) 88 "Clear"
                                             "clear sky")) "lagos") in
  (sn_location s, sc_temp (sn_current s), sc_description (sn_current s),
   sn_risk_indicators s !! "uv_risk", sn_mock_data s) =
  ("Lagos", 36%Z, "Clear Sky", Some "high", None).
Proof. vm_compute; reflexivity. Qed.

Example py_round_ties :
  map py_round [5 # 10; 15 # 10; 25 # 10; -(5 # 10); -(15 # 10); 26 # 10;
                -(26 # 10); 3]%Q =
  [0; 2; 2; 0; -2; 3; -3; 3]%Z.
Proof. vm_compute; reflexivity. Qed.

Example str_title_words :
  str_title "broken clouds" = "Broken Clouds" /\
  str_title "LIGHT rain" = "Light Rain" /\
  str_title "it's 5pm" = "It'S 5Pm".
Proof. repeat split; vm_compute; reflexivity. Qed.

(** * The rules, alert by alert *)










(** * The weather fetch, continued *)


Lemma py_round_integer (n : Z) : py_round (inject_Z n) = n.
Proof.
  unfold py_round. rewrite Qfloor_Z.
  replace (inject_Z n - inject_Z n ?= 1 # 2)%Q with Lt; [reflexivity|].
  symmetry. rewrite <- Qlt_alt. lra.
Qed.

Lemma calculate_health_risks_labels temp humidity feels_like description :
  exists risks,
    calculate_health_risks
      {| owm_main := {| owm_temp := temp; owm_humidity := humidity;
                        owm_feels_like := feels_like |};
         owm_weather := [description] |} = Py.Ok risks /\
    risk_is risks "dehydration_risk" "high" =
      Py.gt temp 32 || (Py.gt temp 28 && Py.gt humidity 70) /\
    risk_is risks "uv_risk" "high" =
      Py.contains "clear" (Py.lower description) && Py.gt temp 25 /\
    risk_is risks "air_quality" "poor" = Py.gt humidity 80.
Proof.
  unfold calculate_health_risks.
  cbn [owm_main owm_weather owm_temp owm_humidity owm_feels_like].
  eexists. split; [reflexivity|]. rewrite !insert_if. unfold risk_is.
  repeat split; rewrite ?lookup_insert_ne by done; rewrite lookup_insert_eq;
    repeat match goal with
    | |- context [Py.gt ?a ?b] => destruct (Py.gt a b)
    | |- context [Py.contains ?a ?b] => destruct (Py.contains a b)
    end; reflexivity.
Qed.

(** What a successful [weather_info] has read and written. *)
Lemma weather_info_ok (data : Payload) (s : Snapshot) :
  weather_info data = Py.Ok s ->
  exists temp humidity feels_like description risks,
    calculate_health_risks
      {| owm_main := {| owm_temp := temp; owm_humidity := humidity;
                        owm_feels_like := feels_like |};
         owm_weather := [description] |} = Py.Ok risks /\
    sc_temp (sn_current s) = py_round temp /\
    sc_feels_like (sn_current s) = py_round feels_like /\
    sc_humidity (sn_current s) = humidity /\
    sn_risk_indicators s = risks /\
    sn_mock_data s = None /\
    payload_name data = Some (sn_location s).
Proof.
  unfold weather_info, classifier_input.
  destruct data as [name_ sys main entries wind visibility]; cbn -[calculate_health_risks].
  destruct name_ as [name_|]; cbn -[calculate_health_risks]; [|discriminate].
  destruct sys as [[country]|]; cbn -[calculate_health_risks]; [|discriminate].
  destruct country as [country|]; cbn -[calculate_health_risks]; [|discriminate].
  destruct main as [[temp feels_like humidity pressure]|]; cbn -[calculate_health_risks];
    [|discriminate].
  destruct temp as [temp|]; cbn -[calculate_health_risks]; [|discriminate].
  destruct feels_like as [feels_like|]; cbn -[calculate_health_risks]; [|discriminate].
  destruct humidity as [humidity|]; cbn -[calculate_health_risks]; [|discriminate].
  destruct pressure as [pressure|]; cbn -[calculate_health_risks]; [|discriminate].
  destruct entries as [[|[wmain description icon_] rest]|]; cbn -[calculate_health_risks];
    [discriminate| |discriminate].
  destruct description as [description|]; cbn -[calculate_health_risks]; [|discriminate].
  destruct icon_ as [icon_|]; cbn -[calculate_health_risks]; [|discriminate].
  destruct wmain as [wmain|]; cbn -[calculate_health_risks]; [|discriminate].
  destruct (calculate_health_risks_labels temp humidity feels_like wmain)
    as (risks & E & _).
  change (Py.bind ?x ?k) with (x ≫= k).
  rewrite E. cbn -[calculate_health_risks]. intros [= <-].
  exists temp, humidity, feels_like, wmain, risks. now repeat split.
Qed.

Lemma get_weather_data_cases api_key provider location_ :
  let result := get_weather_data api_key provider location_ in
  (fst result = get_mock_weather_data location_ \/
   exists response data,
     key_missing api_key = false /\
     provider location_ = Py.Ok response /\
     status_code response = 200%Z /\
     response_json response = Py.Ok data /\
     weather_info data = Py.Ok (fst result)) /\
  snd result = if key_missing api_key then [] else [location_].
Proof.
  unfold get_weather_data.
  destruct (key_missing api_key); cbn [fst snd]; [now split; [left|]|].
  destruct (provider location_) as [response|e]; cbn -[weather_info];
    [|now split; [left|]].
  destruct (Z.eqb_spec (status_code response) 200) as [Hs|Hs];
    cbn -[weather_info]; [|now split; [left|]].
  destruct (response_json response) as [data|e] eqn:Hj;
    cbn -[weather_info]; [|now split; [left|]].
  destruct (weather_info data) as [s|e] eqn:Hw; cbn [fst snd];
    [|now split; [left|]].
  split; [|reflexivity]. right. now exists response, data.
Qed.

(** X20: [get_weather_data] returns either the mock snapshot for the
    location asked, flagged [mock_data], or the unflagged snapshot built
    from a 200 response whose payload has every key that is read. It asks
    the provider at most once, and not at all without an API key. *)
Theorem get_weather_data_mock_or_live api_key provider location_ :
  let result := get_weather_data api_key provider location_ in
  (fst result = get_mock_weather_data location_ /\
   sn_mock_data (fst result) = Some true \/
   sn_mock_data (fst result) = None /\
   exists response data,
     key_missing api_key = false /\
     provider location_ = Py.Ok response /\
     status_code response = 200%Z /\
     response_json response = Py.Ok data /\
     weather_info data = Py.Ok (fst result)) /\
  snd result = (if key_missing api_key then [] else [location_]) /\
  (api_key = None \/ api_key = Some EmptyString ->
   result = (get_mock_weather_data location_, [])).
Proof.
  intros result.
  destruct (get_weather_data_cases api_key provider location_)
    as [[Hmock|(response & data & Hk & Hp & Hs & Hj & Hw)] Hsent];
    fold result in Hmock || fold result in Hw; fold result in Hsent.
  - split; [left; split; [exact Hmock|now rewrite Hmock]|].
    split; [exact Hsent|]. now intros [-> | ->].
  - split.
    + right. destruct (weather_info_ok _ _ Hw)
        as (? & ? & ? & ? & ? & _ & _ & _ & _ & _ & Hflag & _).
      split; [exact Hflag|]. now exists response, data.
    + split; [exact Hsent|]. now intros [-> | ->].
Qed.








(** * Properties of the chart data *)

Import HealthApi.

Lemma insert_asc_perm (x : Log) (l : list Log) : insert_asc x l ≡ₚ x :: l.
Proof.
  induction l as [|y l IH]; cbn [insert_asc]; [reflexivity|].
  destruct (String.ltb (date y) (date x)); [|reflexivity].
  rewrite IH. apply Permutation_swap.
Qed.

Lemma sorted_by_date_asc_perm (l : list Log) : sorted_by_date_asc l ≡ₚ l.
Proof.
  induction l as [|x l IH]; cbn [sorted_by_date_asc]; [reflexivity|].
  now rewrite insert_asc_perm, IH.
Qed.

Lemma insert_asc_sorted (x : Log) (l : list Log) :
  StronglySorted (fun a b => recent_first b a) l ->
  StronglySorted (fun a b => recent_first b a) (insert_asc x l).
Proof.
  induction l as [|y l IH]; cbn [insert_asc]; intros Hl.
  - repeat constructor.
  - apply StronglySorted_cons in Hl as [Hy Hl].
    destruct (String.ltb (date y) (date x)) eqn:Hyx.
    + apply StronglySorted_cons. split; [|now apply IH].
      rewrite insert_asc_perm. constructor; [|assumption].
      unfold recent_first. now apply string_ltb_leb.
    + apply string_not_ltb_leb in Hyx.
      apply StronglySorted_cons. split.
      * constructor; [exact Hyx|].
        eapply Forall_impl; [exact Hy|]. intros z Hz.
        unfold recent_first in *. now apply string_leb_trans with (date y).
      * now apply StronglySorted_cons.
Qed.

Lemma sorted_by_date_asc_sorted (l : list Log) :
  StronglySorted (fun a b => recent_first b a) (sorted_by_date_asc l).
Proof.
  induction l as [|x l IH]; cbn [sorted_by_date_asc]; [constructor|].
  now apply insert_asc_sorted.
Qed.

Lemma chart_fold (rows : list Log) (c : ChartData) :
  fold_left
    (fun chart_data log =>
       {| labels := labels chart_data ++ [date log];
          sleep_data := sleep_data chart_data ++ [sleep_hours log];
          exercise_data := exercise_data chart_data ++ [exercise_minutes log];
          water_data := water_data chart_data ++ [water_glasses log] |})
    rows c =
  {| labels := labels c ++ map date rows;
     sleep_data := sleep_data c ++ map sleep_hours rows;
     exercise_data := exercise_data c ++ map exercise_minutes rows;
     water_data := water_data c ++ map water_glasses rows |}.
Proof.
  revert c. induction rows as [|r rows IH]; intros c; cbn [fold_left map].
  - destruct c. cbn. now rewrite !app_nil_r.
  - rewrite IH. cbn. now rewrite <- !app_assoc.
Qed.

(** X23: the four series of the chart are the columns of one list of
    rows: the logs that [get_by_user_id] returns for a limit of 7 (the
    seven most recent), rearranged by ascending date; so the series have
    the same length, at most 7, and the labels ascend. *)
Theorem lifestyle_chart_data_rows (st : Storage) (uid : Z) :
  let chart := lifestyle_chart_data st uid in
  exists rows,
    rows ≡ₚ get_by_user_id st uid (Some 7%Z) /\
    StronglySorted (fun a b => recent_first b a) rows /\
    (length rows <= 7)%nat /\
    labels chart = map date rows /\
    sleep_data chart = map sleep_hours rows /\
    exercise_data chart = map exercise_minutes rows /\
    water_data chart = map water_glasses rows /\
    StronglySorted (fun a b => String.leb a b = true) (labels chart).
Proof.
  intros chart. subst chart. unfold lifestyle_chart_data.
  exists (sorted_by_date_asc (get_by_user_id st uid (Some 7%Z))).
  rewrite chart_fold. cbn [labels sleep_data exercise_data water_data app].
  pose proof (sorted_by_date_asc_sorted (get_by_user_id st uid (Some 7%Z)))
    as Hsorted.
  split; [apply sorted_by_date_asc_perm|]. split; [exact Hsorted|].
  split.
  - rewrite sorted_by_date_asc_perm. unfold get_by_user_id.
    destruct (lifestyle_logs_db st !! uid); cbn; [|lia].
    unfold Py.slice_to. rewrite length_take. lia.
  - repeat split.
    induction Hsorted as [|a l Hl IH Ha]; cbn [map]; constructor;
      [exact IH|].
    apply Forall_map. exact Ha.
Qed.

(** * Properties of registration and login *)

Import Auth.

Example register_then_bad_age :
  let '(reply1, db1, session1) :=
    register sample_hash sample_int sample_float "t1" "t2"
      (Some (sample_registration "ada@example.org" (JStr "twenty")))
      initial_db empty_session in
  let '(reply2, db2, session2) :=
    register sample_hash sample_int sample_float "t3" "t4"
      (Some (sample_registration "ada@example.org" (JNum 20)))
      db1 session1 in
  (reply_code reply1, reply_code reply2, reply_text reply2,
   length (users_db db2), profile_get_by_user_id 1 db2,
   session_user_id session2) =
  (500%Z, 400%Z, "Email already registered", 1%nat, None, None).
Proof. vm_compute; reflexivity. Qed.

Section AuthProperties.

Variable generate_password_hash : string -> string.
Variable check_password_hash : string -> string -> bool.
Variable py_int : json -> Py.result Z.
Variable py_float : json -> Py.result Q.

Lemma register_cases now_user now_profile data db session :
  let db' := snd (fst (register generate_password_hash py_int py_float
                         now_user now_profile data db session)) in
  db' = db \/
  exists d,
    data = Some d /\
    user_get_by_email (default EmptyString (rd_email d)) db = None /\
    users_db db' =
      users_db (with_new_user generate_password_hash now_user d db) /\
    user_id_counter db' =
      user_id_counter (with_new_user generate_password_hash now_user d db).
Proof.
  unfold register, with_new_user.
  destruct data as [d|]; [|now left].
  destruct (first_missing d); [now left|].
  destruct (user_get_by_email _ db) eqn:E; [now left|].
  rewrite user_create_spec. cbn [snd].
  destruct (py_int _); [|right; now exists d].
  destruct (py_float _); right; now exists d.
Qed.

Lemma get_by_email_none (email_ : string) (db : Db) :
  user_get_by_email email_ db = None ->
  email_ ∉ map email (PyDict.values (users_db db)).
Proof.
  unfold user_get_by_email. generalize (PyDict.values (users_db db)).
  intros l. induction l as [|u l IH]; cbn [find map]; [intros _ H; inversion H|].
  destruct (bool_decide (email u = email_)) eqn:E; [discriminate|].
  apply bool_decide_eq_false_1 in E. intros H Hin.
  apply elem_of_cons in Hin as [Heq|Hin]; [congruence|]. now apply IH.
Qed.

Lemma unique_emails_fresh (db : Db) :
  unique_emails db -> user_get_by_id (user_id_counter db) db = None.
Proof.
  intros (_ & Hkeys & _). unfold user_get_by_id.
  induction Hkeys as [|[k u] l [_ Hk] _ IH]; cbn [PyDict.get]; [reflexivity|].
  cbn [fst] in Hk. destruct (decide (k = user_id_counter db)); [lia|exact IH].
Qed.

Lemma unique_emails_register now_user now_profile data db session :
  unique_emails db ->
  unique_emails (snd (fst (register generate_password_hash py_int py_float
                             now_user now_profile data db session))).
Proof.
  intros Hu.
  destruct (register_cases now_user now_profile data db session)
    as [->|(d & _ & Hfresh & Husers & Hcounter)]; [exact Hu|].
  pose proof (unique_emails_fresh db Hu) as Hid.
  destruct Hu as (Hc & Hkeys & Hnd).
  unfold unique_emails. rewrite Husers, Hcounter.
  unfold with_new_user. rewrite user_create_spec.
  cbn [snd users_db user_id_counter].
  rewrite dict_set_fresh by exact Hid.
  split; [lia|]. split.
  - apply Forall_app. split.
    + eapply Forall_impl; [exact Hkeys|]. intros [k u] [H1 H2].
      cbn [fst snd] in *. split; [done|lia].
    + constructor; [|constructor]. cbn. split; [reflexivity|lia].
  - unfold PyDict.values. rewrite !map_app. cbn [map snd new_user email].
    apply NoDup_app. split; [exact Hnd|]. split.
    + intros x Hx Hin. apply list_elem_of_singleton in Hin as ->.
      now apply (get_by_email_none _ _ Hfresh).
    + apply NoDup_singleton.
Qed.

(** X24: in every store built by registration requests from the empty
    one, whatever the requests and however they end, no two users share an
    email, every user is filed under its own id, and the ids were issued
    by the counter. *)
Theorem registered_unique_emails (db : Db) :
  registered generate_password_hash py_int py_float db -> unique_emails db.
Proof.
  induction 1 as [|now_user now_profile data db session _ IH].
  - split; [cbn; lia|]. split; constructor.
  - now apply unique_emails_register.
Qed.

(** X25: a complete request with a new email, whose age and sleep hours
    convert, is answered with 201 and the new user's id, stores the user
    and the profile and logs the user in; when the email and the password
    are not empty and the hash checks against the password, a login with
    them then succeeds as that user. *)
Theorem register_then_login now_user now_profile (d : RegisterData)
    (db : Db) (session session0 : Session) (age_ : Z) (sleep_ : Q) :
  let email_ := default EmptyString (rd_email d) in
  let password := default EmptyString (rd_password d) in
  first_missing d = None ->
  user_get_by_email email_ db = None ->
  user_get_by_id (user_id_counter db) db = None ->
  py_int (default JNull (rd_age d)) = Py.Ok age_ ->
  py_float (default JNull (rd_sleep_hours d)) = Py.Ok sleep_ ->
  falsy (rd_email d) = false ->
  falsy (rd_password d) = false ->
  check_password_hash (generate_password_hash password) password = true ->
  let result := register generate_password_hash py_int py_float
                  now_user now_profile (Some d) db session in
  let db' := snd (fst result) in
  let uid := user_id_counter db in
  fst (fst result) =
    {| reply_code := 201; reply_text := "User registered successfully";
       reply_user_id := Some uid |} /\
  snd result = {| session_user_id := Some uid;
                  session_user_email := Some email_ |} /\
  is_premium <$> user_get_by_id uid db' = Some false /\
  (age <$> profile_get_by_user_id uid db') = Some age_ /\
  login check_password_hash
        (Some {| ld_email := rd_email d; ld_password := rd_password d |})
        db' session0 =
    ({| reply_code := 200; reply_text := "Login successful";
        reply_user_id := Some uid |},
     {| session_user_id := Some uid; session_user_email := Some email_ |}).
Proof.
  intros email_ password Hfields Hemail Hid Hage Hsleep Hne Hnp Hcheck
         result db' uid.
  subst result db' uid. unfold register.
  rewrite Hfields. fold email_. rewrite Hemail. fold password.
  rewrite user_create_spec, Hage, Hsleep. cbn [fst snd].
  split; [reflexivity|]. split; [reflexivity|]. split.
  - unfold user_get_by_id, profile_create_or_update, with_profiles.
    cbn [users_db]. rewrite dict_get_set.
    now destruct (decide (user_id_counter db = user_id_counter db)).
  - split.
    + unfold profile_get_by_user_id, profile_create_or_update, with_profiles.
      cbn [profiles_db]. now rewrite lookup_insert_eq.
    + unfold login. cbn [ld_email ld_password]. rewrite Hne, Hnp.
      cbn [orb]. fold email_ password.
      unfold user_get_by_email in *. unfold profile_create_or_update,
        with_profiles. cbn [users_db].
      rewrite dict_set_fresh by exact Hid.
      unfold PyDict.values in *. rewrite map_app, find_app_none by exact Hemail.
      cbn [map snd find new_user email].
      rewrite bool_decide_eq_true_2 by reflexivity.
      unfold new_user. cbn [password_hash user_id_of email].
      subst email_ password. now rewrite Hcheck.
Qed.

(** X26: when the age or the sleep hours of an otherwise complete request
    with a new email do not convert, the reply is 500 and nobody is logged
    in, but the user has already been stored, without a profile: the email
    is taken, and a second request with it is answered with 400. *)
Theorem register_partial_failure now_user now_profile now_user' now_profile'
    (d d' : RegisterData) (db : Db) (session session' : Session) :
  let email_ := default EmptyString (rd_email d) in
  first_missing d = None ->
  user_get_by_email email_ db = None ->
  user_get_by_id (user_id_counter db) db = None ->
  (exists e, py_int (default JNull (rd_age d)) = Py.Raise e) \/
  (exists e, py_float (default JNull (rd_sleep_hours d)) = Py.Raise e) ->
  first_missing d' = None ->
  rd_email d' = rd_email d ->
  let result := register generate_password_hash py_int py_float
                  now_user now_profile (Some d) db session in
  let db' := snd (fst result) in
  fst (fst result) = error 500 "Registration failed" /\
  snd result = session /\
  (email <$> user_get_by_email email_ db') = Some email_ /\
  (user_id_of <$> user_get_by_email email_ db') = Some (user_id_counter db) /\
  profiles_db db' = profiles_db db /\
  fst (fst (register generate_password_hash py_int py_float
              now_user' now_profile' (Some d') db' session')) =
    error 400 "Email already registered".
Proof.
  intros email_ Hfields Hemail Hid Hraise Hfields' Hsame result db'.
  assert (Hfound :
    user_get_by_email email_
      (with_new_user generate_password_hash now_user d db) =
    Some (new_user db now_user (default EmptyString (rd_name d)) email_
            (generate_password_hash
               (default EmptyString (rd_password d))))).
  { unfold with_new_user. fold email_.
    rewrite (user_get_by_email_after_create _ _ _ _ _ email_ Hid), Hemail.
    now destruct (decide (email_ = email_)). }
  assert (Hdb : db' = with_new_user generate_password_hash now_user d db /\
                fst (fst result) = error 500 "Registration failed" /\
                snd result = session).
  { subst result db'. unfold register, with_new_user.
    rewrite Hfields. fold email_. rewrite Hemail, user_create_spec.
    destruct Hraise as [[e He]|[e He]].
    - now rewrite He.
    - destruct (py_int _); now rewrite ?He. }
  destruct Hdb as (Hdb & Hreply & Hsession).
  split; [exact Hreply|]. split; [exact Hsession|].
  rewrite Hdb, Hfound. split; [reflexivity|]. split; [reflexivity|].
  split; [reflexivity|].
  unfold register at 1. rewrite Hfields', Hsame. fold email_.
  now rewrite Hfound.
Qed.

(** X27: [login] succeeds exactly when the email and the password are not
    empty, a user has the email, and the stored hash of the first such
    user checks against the password; it then logs that user in.
    Otherwise it answers 400 or 401 and leaves the session as it was. *)
Theorem login_outcomes (data : LoginData) (db : Db) (session : Session) :
  let email_ := default EmptyString (ld_email data) in
  let password := default EmptyString (ld_password data) in
  let result := login check_password_hash (Some data) db session in
  (exists user,
     falsy (ld_email data) = false /\ falsy (ld_password data) = false /\
     user_get_by_email email_ db = Some user /\
     check_password_hash (password_hash user) password = true /\
     fst result = {| reply_code := 200; reply_text := "Login successful";
                     reply_user_id := Some (user_id_of user) |} /\
     snd result = {| session_user_id := Some (user_id_of user);
                     session_user_email := Some email_ |}) \/
  ((reply_code (fst result) = 400%Z \/ reply_code (fst result) = 401%Z) /\
   reply_user_id (fst result) = None /\
   snd result = session /\
   (falsy (ld_email data) = true \/ falsy (ld_password data) = true \/
    user_get_by_email email_ db = None \/
    exists user, user_get_by_email email_ db = Some user /\
                 check_password_hash (password_hash user) password = false)).
Proof.
  intros email_ password result. subst result. unfold login.
  fold email_ password.
  destruct (falsy (ld_email data)) eqn:He; cbn [orb].
  { right. cbn. tauto. }
  destruct (falsy (ld_password data)) eqn:Hp.
  { right. cbn. tauto. }
  destruct (user_get_by_email email_ db) as [user|] eqn:Hu.
  2:{ right. cbn. tauto. }
  destruct (check_password_hash (password_hash user) password) eqn:Hc;
    cbn [negb].
  - left. exists user.
    assert (Hmail : email user = email_).
    { unfold user_get_by_email in Hu. apply find_some in Hu as [_ Hu].
      now apply bool_decide_eq_true_1 in Hu. }
    cbn [fst snd]. rewrite Hmail. now repeat split.
  - right. cbn. repeat split; eauto 6.
Qed.

End AuthProperties.

Lemma registered_unique_emails_witness :
  unique_emails
    (snd (fst (register sample_hash sample_int sample_float "t1" "t2"
                 (Some (sample_registration "ada@example.org" (JNum 30)))
                 initial_db empty_session))).
Proof.
  apply (registered_unique_emails sample_hash sample_int sample_float).
  apply registered_step. apply registered_initial.
Defined.

Lemma register_then_login_witness :
  login sample_check
    (Some {| ld_email := Some "ada@example.org";
             ld_password := Some "secret" |})
    (snd (fst (register sample_hash sample_int sample_float "t1" "t2"
                 (Some (sample_registration "ada@example.org" (JNum 30)))
                 initial_db empty_session)))
    empty_session =
  ({| reply_code := 200; reply_text := "Login successful";
      reply_user_id := Some 1%Z |},
   {| session_user_id := Some 1%Z;
      session_user_email := Some "ada@example.org" |}).
Proof.
  refine (proj2 (proj2 (proj2 (proj2
    (register_then_login sample_hash sample_check sample_int sample_float
       "t1" "t2" (sample_registration "ada@example.org" (JNum 30))
       initial_db empty_session empty_session 30%Z 8%Q
       _ _ _ _ _ _ _ _)))));
    vm_compute; reflexivity.
Defined.

Lemma register_partial_failure_witness :
  fst (fst (register sample_hash sample_int sample_float "t1" "t2"
              (Some (sample_registration "ada@example.org" (JStr "thirty")))
              initial_db empty_session)) =
  error 500 "Registration failed".
Proof.
  refine (proj1
    (register_partial_failure sample_hash sample_int sample_float
       "t1" "t2" "t3" "t4"
       (sample_registration "ada@example.org" (JStr "thirty"))
       (sample_registration "ada@example.org" (JNum 30))
       initial_db empty_session empty_session _ _ _ _ _ _));
    try (vm_compute; reflexivity).
  left. exists Py.APIError. reflexivity.
Defined.

(** * Properties of the payment handlers *)

Import Payments.

Lemma status_after_update reference_ status_ response_ db :
  status_of reference_
    (snd (payment_update_status reference_ status_ response_ db)) =
  (fun _ => status_) <$> payment_get_by_reference reference_ db.
Proof.
  unfold status_of.
  destruct (payment_update_status_lookup reference_ status_ response_ db)
    as (H1 & H2 & _).
  rewrite H2, H1. now destruct (payment_get_by_reference reference_ db).
Qed.

Lemma premium_after_update (uid : Z) (db : Db) :
  premium_of uid (user_update_premium_status uid true db) =
  (fun _ => true) <$> premium_of uid db.
Proof.
  unfold premium_of, user_update_premium_status, user_get_by_id.
  destruct (PyDict.get uid (users_db db)) as [u|] eqn:E;
    cbn [with_users users_db]; [|now rewrite E].
  rewrite dict_get_set. now destruct (decide (uid = uid)).
Qed.

Lemma payments_after_premium (uid : Z) (flag : bool) (db : Db) :
  payments_db (user_update_premium_status uid flag db) = payments_db db.
Proof.
  unfold user_update_premium_status.
  now destruct (PyDict.get uid (users_db db)).
Qed.

Lemma users_after_status reference_ status_ response_ db :
  users_db (snd (payment_update_status reference_ status_ response_ db)) =
  users_db db.
Proof.
  unfold payment_update_status.
  now destruct (update_in_dict reference_ status_ response_ (payments_db db))
    as [[p' d']|].
Qed.

(** What marking a found payment as paid and its owner as premium leaves
    behind. *)
Lemma paid_and_premium reference_ response_ (p : Payment) (db : Db) :
  payment_get_by_reference reference_ db = Some p ->
  let db' := user_update_premium_status (payment_user_id p) true
               (snd (payment_update_status reference_ "success" response_
                                           db)) in
  status_of reference_ db' = Some "success" /\
  premium_of (payment_user_id p) db' =
    (fun _ => true) <$> premium_of (payment_user_id p) db.
Proof.
  intros Hp db'. subst db'. split.
  - unfold status_of, payment_get_by_reference.
    rewrite payments_after_premium.
    fold (payment_get_by_reference reference_
            (snd (payment_update_status reference_ "success" response_ db))).
    fold (status_of reference_
            (snd (payment_update_status reference_ "success" response_ db))).
    now rewrite status_after_update, Hp.
  - rewrite premium_after_update. unfold premium_of, user_get_by_id.
    now rewrite users_after_status.
Qed.

(** Settles the routine parts of a statement about a handler's reply. *)
Ltac handler_facts :=
  cbn [fst snd length]; repeat split;
  try done; try lia; try congruence;
  try (intros [|[|]]; congruence);
  try (intros [|]; congruence);
  try match goal with |- _ ∈ _ => compute_done end.

(** X28: [verify_payment] answers 200 only for a logged-in caller and a
    reference that leads to a stored payment; that payment is then marked
    ["success"] and its owner, if stored, is premium. With any other
    answer no user is changed, and with 401, 404 or 500 nothing is. In
    mock mode, or without a secret key, the gateway is never asked;
    otherwise it is asked at most once. *)
Theorem verify_payment_outcomes secret_key gateway session reference_ mock
    (db : Db) :
  let result := verify_payment secret_key gateway session reference_ mock
                               db in
  let code := fst (fst result) in
  let db' := snd (fst result) in
  let ref := default EmptyString reference_ in
  (code = 200%Z ->
   exists p,
     is_Some (session_user_id session) /\
     payment_get_by_reference ref db = Some p /\
     status_of ref db' = Some "success" /\
     premium_of (payment_user_id p) db' =
       (fun _ => true) <$> premium_of (payment_user_id p) db) /\
  (code <> 200%Z -> users_db db' = users_db db) /\
  (code = 401%Z \/ code = 404%Z \/ code = 500%Z -> db' = db) /\
  (mock_mode_of mock = true \/ falsy secret_key = true ->
   snd result = []) /\
  (length (snd result) <= 1)%nat /\
  code ∈ [200; 400; 401; 404; 500]%Z.
Proof.
  intros result code db' ref. subst result code db'. unfold verify_payment.
  fold ref.
  destruct (session_user_id session) as [uid|]; [|handler_facts].
  destruct (falsy reference_); [handler_facts|].
  destruct (payment_get_by_reference ref db) as [p|] eqn:Hp;
    [|handler_facts].
  destruct (mock_mode_of mock || falsy secret_key) eqn:Hmock.
  { destruct (paid_and_premium ref (Some mock_gateway_response) p db Hp)
      as [Hs Hpr].
    split; [intros _; exists p; eauto|handler_facts]. }
  apply orb_false_iff in Hmock as [Hm Hk].
  destruct (gateway ref) as [response|e]; [|handler_facts].
  destruct (gateway_status_code response =? 200)%Z; [|handler_facts].
  destruct (gateway_json response) as [response_data|e]; [|handler_facts].
  destruct (data_of response_data) as [d|e]; [|handler_facts].
  destruct (d !! "status") as [status_|]; [|handler_facts].
  destruct (is_str status_ "success").
  - destruct (paid_and_premium ref (Some d) p db Hp) as [Hs Hpr].
    split; [intros _; exists p; eauto|handler_facts].
  - split; [discriminate|].
    split; [intros _; apply users_after_status|handler_facts].
Qed.

(** X29: a [charge.success] event whose data names the reference of a
    stored payment is answered with 200, marks that payment ["success"]
    and makes its owner, if stored, premium; the webhook asks for no
    session and checks no signature. *)
Theorem paystack_webhook_charge_success
    (event_data d : gmap string json) (ref : string) (p : Payment) (db : Db) :
  event_data !! "event" = Some (JStr "charge.success") ->
  event_data !! "data" = Some (JObj d) ->
  d !! "reference" = Some (JStr ref) ->
  payment_get_by_reference ref db = Some p ->
  let result := paystack_webhook (Some event_data) db in
  fst result = 200%Z /\
  status_of ref (snd result) = Some "success" /\
  premium_of (payment_user_id p) (snd result) =
    (fun _ => true) <$> premium_of (payment_user_id p) db.
Proof.
  intros Hevent Hdata Href Hp result. subst result.
  unfold paystack_webhook, data_of. rewrite Hevent. cbn [is_str].
  rewrite (proj2 (String.eqb_eq _ _) eq_refl), Hdata, Href, Hp.
  cbn [fst snd]. split; [reflexivity|].
  exact (paid_and_premium ref (Some d) p db Hp).
Qed.

Lemma paystack_webhook_charge_success_witness :
  premium_of 1 (snd (paystack_webhook (Some charge_success_event)
                                       one_payment_db)) = Some true.
Proof.
  refine (proj2 (proj2
    (paystack_webhook_charge_success charge_success_event charge_data
       "HC_1_ab12"
       (new_payment
          (snd (user_create "2024-05-04T08:00:00" "Ada" "ada@example.org"
                            "hash" initial_db))
          "2024-05-04T09:00:00" 1 "HC_1_ab12" 50 "NGN")
       one_payment_db _ _ _ _))); vm_compute; reflexivity.
Defined.

(** * Properties of the tips, alerts and chat handlers *)

Import HealthHandlers.

Section HandlerProperties.

Variable str_float : Q -> string.
Variable json_loads : string -> Py.result json.



End HandlerProperties.

Section HandlerReplies.

Variable str_float : Q -> string.
Variable json_loads : string -> Py.result json.


End HandlerReplies.

